(** * DeFi data collector and normaliser: a shallow embedding

    The repository has two scripts.  [data_formatter.js] reads five raw JSON
    documents and reshapes each into a sequence of flat records (the five
    [format...Data] rules, driven by [processAllData]).  [index.js] fetches the
    five payloads and reports a summary of counts ([fetchAllData]).

    The documents are untyped JSON, so the embedding works over one type of
    JavaScript values and writes out what the language does on every value:
    truthiness, property reads (which throw on [undefined] and [null]),
    [Array.isArray], [Array.prototype.map], [forEach], array destructuring and
    [Object.entries].  An exception is an explicit outcome of a computation. *)

From Stdlib Require Import ZArith QArith Ascii String DecimalString.
From stdpp Require Import base option list strings gmap.

Local Open Scope Z_scope.

(** ** JavaScript values *)

Module JS.

(** A value as [JSON.parse] builds it, plus [undefined], which a read of a
    missing property yields and an object literal of the program may hold.

    - [VNum]: a finite number, given by its exact value as a fraction.
    - [VStr]: a string, given by its code units where these are 8-bit;
      [length], an index and an iteration of a string go by these units.
      They are JavaScript's UTF-16 units for text within Latin-1 only, and
      the theorems below pin down lengths and elements of lists, never of
      strings.
    - [VObj]: the own properties in the order [Object.entries] lists them;
      a read takes the first binding of a key. *)
#[warnings="-register-all"]
Inductive value : Type :=
  | VUndef
  | VNull
  | VBool (b : bool)
  | VNum (n : Q)
  | VStr (s : string)
  | VArr (elems : list value)
  | VObj (props : list (string * value)).

(** An integer-valued number. *)
Definition VInt (z : Z) : value := VNum (inject_Z z).

(** The exceptions the program can meet. *)
Inductive error : Type :=
  | TypeError
  | RangeError.

(** Outcome of evaluating a piece of code: a value or a thrown exception. *)
Inductive completion (A : Type) : Type :=
  | Normal (a : A)
  | Throw (e : error).
Arguments Normal {A} a.
Arguments Throw {A} e.

Definition bind {A B} (c : completion A) (k : A -> completion B) : completion B :=
  match c with
  | Normal a => k a
  | Throw e => Throw e
  end.

Notation "x <- c ;; k" := (bind c (fun x => k))
  (at level 100, c at next level, right associativity).

(** Run [f] on each element, left to right, stopping at the first throw. *)
Fixpoint mapM {A B} (f : A -> completion B) (l : list A) : completion (list B) :=
  match l with
  | [] => Normal []
  | x :: l' => y <- f x ;; ys <- mapM f l' ;; Normal (y :: ys)
  end.

(** A loop whose body pushes onto the array [acc]. *)
Fixpoint foldM {A S} (f : S -> A -> completion S) (acc : S) (l : list A) : completion S :=
  match l with
  | [] => Normal acc
  | x :: l' => acc' <- f acc x ;; foldM f acc' l'
  end.

(** [!!v] is [truthy v]. *)
Definition truthy (v : value) : bool :=
  match v with
  | VUndef | VNull => false
  | VBool b => b
  | VNum n => negb (Qnum n =? 0)
  | VStr s => negb (String.eqb s "")
  | VArr _ | VObj _ => true
  end.

Definition nullish (v : value) : bool :=
  match v with
  | VUndef | VNull => true
  | _ => false
  end.

Definition isArray (v : value) : bool :=
  match v with
  | VArr _ => true
  | _ => false
  end.

Fixpoint lookup_prop (k : string) (props : list (string * value)) : option value :=
  match props with
  | [] => None
  | (k', v) :: rest => if String.eqb k k' then Some v else lookup_prop k rest
  end.

(** Decimal text of an index, as in the keys ["0"], ["1"], ... *)
Definition key_of_index (i : nat) : string :=
  NilZero.string_of_uint (Nat.to_uint i).

(** The index a property key denotes, when it is a canonical one. *)
Definition index_of_key (k : string) : option nat :=
  match NilZero.uint_of_string k with
  | Some u =>
      let i := Nat.of_uint u in
      if String.eqb (key_of_index i) k then Some i else None
  | None => None
  end.

Definition chars (s : string) : list value :=
  (fun c => VStr (String c EmptyString)) <$> list_ascii_of_string s.

Definition element (l : list value) (k : string) : value :=
  match index_of_key k with
  | Some i => default VUndef (l !! i)
  | None => VUndef
  end.

(** [v.k] (or [v[k]]) for a [v] that is neither [undefined] nor [null].  The
    keys the program reads name no built-in method, so only own properties,
    indices and [length] matter. *)
Definition prop (v : value) (k : string) : value :=
  match v with
  | VObj props => default VUndef (lookup_prop k props)
  | VArr l =>
      if String.eqb k "length" then VInt (Z.of_nat (length l)) else element l k
  | VStr s =>
      if String.eqb k "length" then VInt (Z.of_nat (String.length s))
      else element (chars s) k
  | _ => VUndef
  end.

(** [v.k]: reading a property of [undefined] or [null] throws. *)
Definition get (v : value) (k : string) : completion value :=
  if nullish v then Throw TypeError else Normal (prop v k).

(** [v?.k] *)
Definition optget (v : value) (k : string) : value :=
  if nullish v then VUndef else prop v k.

(** [a || b] *)
Definition or_else (a b : value) : value :=
  if truthy a then a else b.

(** [v.map(f)]: only an array has the method. *)
Definition array_map (f : value -> completion value) (v : value)
  : completion (list value) :=
  match v with
  | VArr l => mapM f l
  | _ => Throw TypeError
  end.

(** [v.forEach(body)], the body pushing onto [acc]. *)
Definition forEach {S} (body : S -> value -> completion S) (v : value) (acc : S)
  : completion S :=
  match v with
  | VArr l => foldM body acc l
  | _ => Throw TypeError
  end.

(** The values an array pattern draws from [v]: arrays and strings are
    iterable, nothing else in a document is. *)
Definition iterate (v : value) : completion (list value) :=
  match v with
  | VArr l => Normal l
  | VStr s => Normal (chars s)
  | _ => Throw TypeError
  end.

(** The pattern [[a, b]] bound to [v]. *)
Definition destructure2 (v : value) : completion (value * value) :=
  l <- iterate v ;;
  Normal (default VUndef (l !! 0%nat), default VUndef (l !! 1%nat)).

Definition indexed (l : list value) : list (string * value) :=
  imap (fun i x => (key_of_index i, x)) l.

(** [Object.entries(v)] *)
Definition entries (v : value) : completion (list (string * value)) :=
  match v with
  | VUndef | VNull => Throw TypeError
  | VBool _ | VNum _ => Normal []
  | VStr s => Normal (indexed (chars s))
  | VArr l => Normal (indexed l)
  | VObj props => Normal props
  end.

(** *** Dates

    Time values are milliseconds since the epoch, [None] standing for the
    invalid date.  The calendar functions follow ECMA-262 (Day, TimeWithinDay,
    and the proleptic Gregorian year, month and day of a day number). *)

Definition msPerDay : Z := 86400000.

Definition TimeClip (t : Z) : option Z :=
  if Z.abs t <=? 8640000000000000 then Some t else None.

Definition Day (t : Z) : Z := t / msPerDay.
Definition TimeWithinDay (t : Z) : Z := t mod msPerDay.

(** Year, month (1-12) and day of month (1-31) of a day number. *)
Definition civil (day : Z) : Z * Z * Z :=
  let z := day + 719468 in
  let era := z / 146097 in
  let doe := z - era * 146097 in
  let yoe := (doe - doe / 1460 + doe / 36524 - doe / 146096) / 365 in
  let doy := doe - (365 * yoe + yoe / 4 - yoe / 100) in
  let mp := (5 * doy + 2) / 153 in
  let d := doy - (153 * mp + 2) / 5 + 1 in
  let m := if mp <? 10 then mp + 3 else mp - 9 in
  let y := yoe + era * 400 in
  (if m <=? 2 then y + 1 else y, m, d).

Definition digit (n : Z) : ascii :=
  ascii_of_nat (48 + Z.to_nat (n mod 10)).

(** The last [w] decimal digits of [n], zero padded. *)
Fixpoint pad (w : nat) (n : Z) : string :=
  match w with
  | O => EmptyString
  | S w' => String.append (pad w' (n / 10)) (String (digit n) EmptyString)
  end.

Definition year_text (y : Z) : string :=
  if (0 <=? y) && (y <=? 9999) then pad 4 y
  else String.append (if 0 <=? y then "+" else "-") (pad 6 (Z.abs y)).

Definition iso_text (t : Z) : string :=
  let '(y, m, d) := civil (Day t) in
  let w := TimeWithinDay t in
  String.concat ""
    [year_text y; "-"; pad 2 m; "-"; pad 2 d; "T";
     pad 2 (w / 3600000); ":"; pad 2 (w / 60000 mod 60); ":";
     pad 2 (w / 1000 mod 60); "."; pad 3 (w mod 1000); "Z"]%string.

(** [date.toISOString()] *)
Definition toISOString (t : option Z) : completion string :=
  match t with
  | Some t => Normal (iso_text t)
  | None => Throw RangeError
  end.

End JS.

Import JS.

(** ** The host: files and the console *)

Module Host.

(** A file holds text; what matters of it is the JSON value it parses to,
    if any.  Directories are left out: a write finds its directory, which
    both scripts create before anything else. *)
Inductive file : Type :=
  | Json (v : value)
  | Unparseable.

Inductive stream : Type :=
  | Stdout
  | Stderr.

Record world : Type := World {
  files : gmap string file;
  console : list (stream * string)
}.

(** [console.log(line)] *)
Definition log (line : string) (w : world) : world :=
  World (files w) (console w ++ [(Stdout, line)]).

(** [console.error(line, ...)]; the rendering of the error that follows
    the line is left out. *)
Definition error (line : string) (w : world) : world :=
  World (files w) (console w ++ [(Stderr, line)]).

(** The value the text [JSON.stringify(v, null, 2)] denotes: a property
    holding [undefined] is left out, an element holding it becomes [null]. *)
Fixpoint serialized (v : value) : value :=
  match v with
  | VArr l =>
      VArr (map (fun x => match x with VUndef => VNull | _ => serialized x end) l)
  | VObj props =>
      VObj ((fix go (ps : list (string * value)) : list (string * value) :=
               match ps with
               | [] => []
               | (k, x) :: rest =>
                   match x with
                   | VUndef => go rest
                   | _ => (k, serialized x) :: go rest
                   end
               end) props)
  | _ => v
  end.

(** [fs.writeFileSync(path, JSON.stringify(v, null, 2))] *)
Definition writeJson (path : string) (v : value) (w : world) : world :=
  World (<[path := Json (serialized v)]> (files w)) (console w).

End Host.

Import Host.

(** ** The normaliser ([data_formatter.js]) *)

Module Formatter.

Local Open Scope string_scope.
Local Open Scope list_scope.
Local Open Scope Z_scope.

(** [a || b] on conditions, [b] evaluated only when [a] is false. *)
Definition orM (a b : completion bool) : completion bool :=
  x <- a ;; if x then Normal true else b.

Infix "|||" := orM (at level 50, left associativity).

(** [!v] *)
Definition falsy (v : value) : completion bool := Normal (negb (truthy v)).

(** [!e] for an expression [e] that may throw. *)
Definition notM (c : completion value) : completion bool := v <- c ;; falsy v.

(** [!Array.isArray(e)] *)
Definition notArrayM (c : completion value) : completion bool :=
  v <- c ;; Normal (negb (isArray v)).

(** [a.k1.k2...]: a chain of property reads. *)
Fixpoint path (v : value) (ks : list string) : completion value :=
  match ks with
  | [] => Normal v
  | k :: ks' => x <- get v k ;; path x ks'
  end.

(** The properties [out: src.k, ...] of an object literal, one per pair
    [(out, k)], read in order. *)
Definition fields (src : value) (spec : list (string * string))
  : completion (list (string * value)) :=
  mapM (fun '(out, k) => x <- get src k ;; Normal (out, x)) spec.

(** [data.metadata.collection_info.timestamp] *)
Definition collection_timestamp (data : value) : completion value :=
  path data ["metadata"; "collection_info"; "timestamp"].

Definition protocol_tvl_fields : list (string * string) :=
  [("protocol_name", "name"); ("protocol_id", "id"); ("protocol_symbol", "symbol");
   ("protocol_url", "url"); ("description", "description"); ("chain", "chain");
   ("category", "category"); ("tvl", "tvl"); ("tvl_change_1d", "change_1d");
   ("tvl_change_7d", "change_7d"); ("tvl_change_1m", "change_1m");
   ("audits", "audits"); ("audit_note", "audit_note"); ("mcap_tvl", "mcap_tvl");
   ("forked", "forked"); ("module", "module"); ("listedAt", "listedAt")].

Definition formatProtocolTvlData (data : value) : completion (list value) :=
  c <- falsy data ||| notM (get data "data") ||| notArrayM (get data "data") ;;
  if c then Normal [] else
  d <- get data "data" ;;
  array_map (fun protocol =>
    timestamp <- collection_timestamp data ;;
    fs <- fields protocol protocol_tvl_fields ;;
    Normal (VObj (("timestamp", timestamp) :: fs))) d.

Definition yield_pool_fields : list (string * string) :=
  [("chain", "chain"); ("project", "project"); ("symbol", "symbol");
   ("tvl_usd", "tvlUsd"); ("apy_base", "apyBase"); ("apy_reward", "apyReward");
   ("apy", "apy"); ("reward_tokens", "rewardTokens"); ("il_risk", "ilRisk");
   ("exposure", "exposure")].

(** [{ predictedClass: pool.predictions?.predictedClass, ... }] *)
Definition predictions_of (pool : value) : completion value :=
  p1 <- get pool "predictions" ;;
  p2 <- get pool "predictions" ;;
  p3 <- get pool "predictions" ;;
  Normal (VObj [("predictedClass", optget p1 "predictedClass");
                ("predictedProbability", optget p2 "predictedProbability");
                ("binnedConfidence", optget p3 "binnedConfidence")]).

Definition formatYieldPoolData (data : value) : completion (list value) :=
  c <- falsy data ||| notM (get data "data") ||| notM (path data ["data"; "data"])
       ||| notArrayM (path data ["data"; "data"]) ;;
  if c then Normal [] else
  pools <- path data ["data"; "data"] ;;
  array_map (fun pool =>
    timestamp <- collection_timestamp data ;;
    fs <- fields pool yield_pool_fields ;;
    predictions <- predictions_of pool ;;
    Normal (VObj (("timestamp", timestamp) :: fs ++ [("predictions", predictions)])))
    pools.

Definition stablecoin_fields : list (string * string) :=
  [("id", "id"); ("name", "name"); ("symbol", "symbol"); ("price", "price");
   ("circulating_supply", "circulating"); ("market_cap", "peggedUSD");
   ("chains", "chains"); ("peg_type", "pegType"); ("peg_mechanism", "pegMechanism");
   ("price_change_24h", "priceChange24h");
   ("market_cap_change_24h", "marketCapChange24h");
   ("circulating_change_24h", "circulatingChange24h");
   ("circulating_change_7d", "circulatingChange7d");
   ("circulating_change_1m", "circulatingChange1m")].

Definition formatStablecoinData (data : value) : completion (list value) :=
  c <- falsy data ||| notM (get data "data")
       ||| notM (path data ["data"; "peggedAssets"])
       ||| notArrayM (path data ["data"; "peggedAssets"]) ;;
  if c then Normal [] else
  coins <- path data ["data"; "peggedAssets"] ;;
  array_map (fun coin =>
    timestamp <- collection_timestamp data ;;
    fs <- fields coin stablecoin_fields ;;
    Normal (VObj (("timestamp", timestamp) :: fs))) coins.

Definition protocol_fee_fields : list (string * string) :=
  [("protocol_name", "name"); ("protocol_slug", "slug"); ("category", "category");
   ("total_fees_24h", "totalFees24h"); ("total_revenue_24h", "totalRevenue24h");
   ("fees_change_24h", "feesChange24h");
   ("revenue_change_24h", "revenueChange24h")].

Definition formatProtocolFeeData (data : value) : completion (list value) :=
  c <- falsy data ||| notM (get data "data")
       ||| notArrayM (path data ["data"; "protocols"]) ;;
  if c then Normal [] else
  protocols <- path data ["data"; "protocols"] ;;
  array_map (fun protocol =>
    timestamp <- collection_timestamp data ;;
    fs <- fields protocol protocol_fee_fields ;;
    Normal (VObj (("timestamp", timestamp) :: fs))) protocols.

(** *** Document shapes

    What the specification calls a well-formed document, stated on the
    document itself: [read] follows a path and gives [undefined] as soon as
    a step is absent. *)

Fixpoint read (v : value) (ks : list string) : value :=
  match ks with
  | [] => v
  | k :: ks' => read (optget v k) ks'
  end.

Definition is_object (v : value) : bool :=
  match v with
  | VObj _ => true
  | _ => false
  end.

Definition is_list_of (P : value -> bool) (v : value) : bool :=
  match v with
  | VArr l => forallb P l
  | _ => false
  end.

Definition is_map_of (P : value -> bool) (v : value) : bool :=
  match v with
  | VObj props => forallb (fun kv => P kv.2) props
  | _ => false
  end.

(** A field that may be absent. *)
Definition optional (P : value -> bool) (v : value) : bool :=
  match v with
  | VUndef => true
  | _ => P v
  end.

(** The collection time a document declares. *)
Definition declared_time (doc : value) : value :=
  read doc ["metadata"; "collection_info"; "timestamp"].

Definition has_declared_time (doc : value) : bool :=
  is_object doc && negb (nullish (declared_time doc)).

(** The integer a number is, when it is one. *)
Definition whole (n : Q) : option Z :=
  let q := Qred n in
  if (Qden q =? 1)%positive then Some (Qnum q) else None.

(** A point [[epoch seconds, volume]] of the chart, the seconds a whole
    number within the range of dates. *)
Definition is_point (e : value) : bool :=
  match e with
  | VArr [VNum n; _] =>
      match whole n with
      | Some ts => Z.abs (ts * 1000) <=? 8640000000000000
      | None => false
      end
  | _ => false
  end.

(** A protocol entry of the DEX overview: an object whose [breakdown24h],
    when present, maps chains to objects mapping DEX names to volumes. *)
Definition is_dex_protocol (p : value) : bool :=
  is_object p && optional (is_map_of is_object) (prop p "breakdown24h").

Definition well_formed_dex (doc : value) : bool :=
  has_declared_time doc
  && is_object (read doc ["data"])
  && optional (is_list_of is_point) (read doc ["data"; "totalDataChart"])
  && optional (is_list_of is_dex_protocol) (read doc ["data"; "protocols"]).

(** *** The DEX volume rule *)

Section DexVolume.

(** The time value of [new Date(ts * 1000)] when [ts] is a number with a
    fractional part, a string, an array or an object.  For a fraction the
    product is rounded as a double before it is truncated, and for the others
    the number they convert to is fixed by the language's numeric grammar for
    strings; neither plays a part in what follows, so this conversion is a
    parameter. *)
Variable coerceTime : value -> completion (option Z).

(** The time value of [new Date(ts * 1000)].  For whole seconds the double
    product is the exact one wherever that lies in the range of dates, and
    lies outside the range wherever the exact one does. *)
Definition timeValue (ts : value) : completion (option Z) :=
  match ts with
  | VNum n =>
      match whole n with
      | Some seconds => Normal (TimeClip (seconds * 1000))
      | None => coerceTime ts
      end
  | VUndef => Normal None
  | VNull => Normal (TimeClip 0)
  | VBool b => Normal (TimeClip (if b then 1000 else 0))
  | VStr _ | VArr _ | VObj _ => coerceTime ts
  end.

Definition historical_total (iso : string) (volume : value) : value :=
  VObj [("timestamp", VStr iso); ("total_volume", volume);
        ("type", VStr "historical_total")].

(** The object literal of the chart loop, for the entry [[ts, volume]]. *)
Definition chart_point (entry : value) : completion value :=
  pair <- destructure2 entry ;;
  let '(ts, volume) := pair in
  t <- timeValue ts ;;
  iso <- toISOString t ;;
  Normal (historical_total iso volume).

(** [if (data.data.totalDataChart) { ....forEach(([ts, volume]) => push) }] *)
Definition historical_section (data : value) (formattedData : list value)
  : completion (list value) :=
  chart <- path data ["data"; "totalDataChart"] ;;
  if truthy chart then
    forEach (fun acc entry =>
      record <- chart_point entry ;;
      Normal (acc ++ [record])) chart formattedData
  else Normal formattedData.

(** [data.data.protocols && data.data.protocols[0]] *)
Definition first_protocol (data : value) : completion value :=
  protocols <- path data ["data"; "protocols"] ;;
  if truthy protocols then path data ["data"; "protocols"; "0"]
  else Normal protocols.

Definition dex_specific (timestamp : value) (chain dexName : string)
    (volume change_1d change_7dover7d change_30dover30d : value) : value :=
  VObj [("timestamp", timestamp); ("type", VStr "dex_specific");
        ("dex_name", VStr dexName); ("chain", VStr chain);
        ("volume_24h", volume); ("volume_24h_change", change_1d);
        ("volume_7d_change", change_7dover7d);
        ("volume_30d_change", change_30dover30d)].

(** The body of the inner loop, for one (DEX, volume) entry of one chain. *)
Definition push_dex (data timestamp : value) (chain : string)
    (acc : list value) (entry : string * value) : completion (list value) :=
  let '(dexName, volume) := entry in
  c1 <- path data ["data"; "protocols"; "0"; "change_1d"] ;;
  c7 <- path data ["data"; "protocols"; "0"; "change_7dover7d"] ;;
  c30 <- path data ["data"; "protocols"; "0"; "change_30dover30d"] ;;
  Normal (acc ++ [dex_specific timestamp chain dexName volume c1 c7 c30]).

(** The body of the outer loop, for one (chain, dexes) entry. *)
Definition push_chain (data timestamp : value)
    (acc : list value) (entry : string * value) : completion (list value) :=
  let '(chain, dexes) := entry in
  es <- entries dexes ;;
  foldM (push_dex data timestamp chain) acc es.

Definition dex_section (data timestamp : value) (formattedData : list value)
  : completion (list value) :=
  p0 <- first_protocol data ;;
  if truthy p0 then
    breakdown <- path data ["data"; "protocols"; "0"; "breakdown24h"] ;;
    if truthy breakdown then
      es <- entries breakdown ;;
      foldM (push_chain data timestamp) formattedData es
    else Normal formattedData
  else Normal formattedData.

Definition volume_summary_fields : list (string * string) :=
  [("total_24h", "total24h"); ("total_48h_to_24h", "total48hto24h");
   ("total_7d", "total7d"); ("total_14d_to_7d", "total14dto7d");
   ("total_30d", "total30d"); ("total_60d_to_30d", "total60dto30d");
   ("total_1y", "total1y"); ("total_alltime", "totalAllTime");
   ("average_1y", "average1y"); ("volume_24h_change", "change_1d");
   ("volume_7d_change", "change_7d"); ("volume_1m_change", "change_1m");
   ("volume_7d_over_7d_change", "change_7dover7d");
   ("volume_30d_over_30d_change", "change_30dover30d")].

Definition summary_section (data timestamp : value) (formattedData : list value)
  : completion (list value) :=
  p0 <- first_protocol data ;;
  if truthy p0 then
    summary <- path data ["data"; "protocols"; "0"] ;;
    fs <- fields summary volume_summary_fields ;;
    Normal (formattedData ++
      [VObj (("timestamp", timestamp) :: ("type", VStr "volume_summary") :: fs)])
  else Normal formattedData.

Definition formatDexVolumeData (data : value) : completion (list value) :=
  c <- falsy data ||| notM (get data "data") ;;
  if c then Normal [] else
  let formattedData := [] in
  timestamp <- collection_timestamp data ;;
  formattedData <- historical_section data formattedData ;;
  formattedData <- dex_section data timestamp formattedData ;;
  formattedData <- summary_section data timestamp formattedData ;;
  Normal formattedData.

(** *** What the DEX volume rule emits, section by section

    The three sections of the output on a document of the expected shape,
    read off the three blocks of [formatDexVolumeData]. *)

Definition list_at (v : value) : list value :=
  match v with
  | VArr l => l
  | _ => []
  end.

(** The entries [Object.entries] lists for [v], none where it throws. *)
Definition props_of (v : value) : list (string * value) :=
  match entries v with
  | Normal es => es
  | Throw _ => []
  end.

Definition point_record (e : value) : list value :=
  match e with
  | VArr [VNum n; volume] =>
      match whole n with
      | Some ts => [historical_total (iso_text (ts * 1000)) volume]
      | None => []
      end
  | _ => []
  end.

Definition historical_of (doc : value) : list value :=
  flat_map point_record (list_at (read doc ["data"; "totalDataChart"])).

(** The value of [data.data.protocols && data.data.protocols[0]]. *)
Definition first_or_falsy (doc : value) : value :=
  let protocols := read doc ["data"; "protocols"] in
  if truthy protocols then prop protocols "0" else protocols.

(** The first protocol entry, when that test lets one through: the head of
    the protocol list, on a list of objects. *)
Definition first_entry (doc : value) : option value :=
  let p0 := first_or_falsy doc in
  if truthy p0 then Some p0 else None.

(** The (chain, DEX, volume) triples of a breakdown, in the order
    [Object.entries] walks it. *)
Definition pairs_of (breakdown : value) : list (string * string * value) :=
  flat_map (fun '(chain, dexes) =>
              map (fun '(dexName, volume) => (chain, dexName, volume))
                  (props_of dexes))
           (props_of breakdown).

Definition dex_record (timestamp p0 : value) (t : string * string * value)
  : value :=
  let '(chain, dexName, volume) := t in
  dex_specific timestamp chain dexName volume (prop p0 "change_1d")
    (prop p0 "change_7dover7d") (prop p0 "change_30dover30d").

(** The records of one chain of the breakdown of [p0]. *)
Definition chain_records (timestamp p0 : value) (entry : string * value)
  : list value :=
  map (fun e => dex_record timestamp p0 (entry.1, e.1, e.2)) (props_of entry.2).

Definition dex_specific_of (doc : value) : list value :=
  match first_entry doc with
  | Some p0 =>
      map (dex_record (declared_time doc) p0) (pairs_of (prop p0 "breakdown24h"))
  | None => []
  end.

Definition volume_summary (timestamp p0 : value) : value :=
  VObj (("timestamp", timestamp) :: ("type", VStr "volume_summary")
        :: map (fun '(out, k) => (out, prop p0 k)) volume_summary_fields).

Definition summary_of (doc : value) : list value :=
  match first_entry doc with
  | Some p0 => [volume_summary (declared_time doc) p0]
  | None => []
  end.

(** *** The five rules as one family, and the shape of their documents *)

Inductive rule : Type :=
  | ProtocolTvl
  | DexVolume
  | YieldPool
  | Stablecoin
  | ProtocolFee.

Definition apply_rule (r : rule) : value -> completion (list value) :=
  match r with
  | ProtocolTvl => formatProtocolTvlData
  | DexVolume => formatDexVolumeData
  | YieldPool => formatYieldPoolData
  | Stablecoin => formatStablecoinData
  | ProtocolFee => formatProtocolFeeData
  end.

(** Where a rule looks for its container. *)
Definition container_path (r : rule) : list string :=
  match r with
  | ProtocolTvl => ["data"]
  | DexVolume => ["data"]
  | YieldPool => ["data"; "data"]
  | Stablecoin => ["data"; "peggedAssets"]
  | ProtocolFee => ["data"; "protocols"]
  end.

(** The four rules that map over a list; the DEX volume rule does not. *)
Definition expects_list (r : rule) : bool :=
  match r with
  | DexVolume => false
  | _ => true
  end.

(** A well-formed document of a rule: it declares its collection time and
    holds, at the rule's path, a list of objects (for the DEX volume rule,
    the sections described above). *)
Definition well_formed (r : rule) (doc : value) : bool :=
  match r with
  | DexVolume => well_formed_dex doc
  | _ => has_declared_time doc
         && is_list_of is_object (read doc (container_path r))
  end.

(** The inputs a rule's opening check turns away: no document, no [data]
    field, or (for the list rules) no list at the container path. *)
Definition lacks_container (r : rule) (doc : value) : bool :=
  negb (truthy doc)
  || negb (truthy (optget doc "data"))
  || (expects_list r && negb (isArray (read doc (container_path r)))).

(** The tag of a record of the DEX volume rule. *)
Definition has_type (tag : string) (record : value) : bool :=
  match prop record "type" with
  | VStr s => String.eqb s tag
  | _ => false
  end.

(** The record a list rule builds from one element that has properties:
    the object literal with every read done. *)
Definition record_of (timestamp : value) (spec : list (string * string))
    (src : value) : value :=
  VObj (("timestamp", timestamp) :: map (fun '(out, k) => (out, prop src k)) spec).

Definition prediction_keys : list string :=
  ["predictedClass"; "predictedProbability"; "binnedConfidence"].

Definition predictions_record (pool : value) : value :=
  VObj (map (fun k => (k, optget (prop pool "predictions") k)) prediction_keys).

Definition yield_record (timestamp : value) (pool : value) : value :=
  VObj (("timestamp", timestamp)
        :: map (fun '(out, k) => (out, prop pool k)) yield_pool_fields
        ++ [("predictions", predictions_record pool)]).

(** The record of a list rule; the DEX volume rule is no list rule and
    builds its records section by section, as above. *)
Definition rule_record (r : rule) (timestamp : value) : value -> value :=
  match r with
  | ProtocolTvl => record_of timestamp protocol_tvl_fields
  | DexVolume => fun src => src
  | YieldPool => yield_record timestamp
  | Stablecoin => record_of timestamp stablecoin_fields
  | ProtocolFee => record_of timestamp protocol_fee_fields
  end.

(** *** The batch driver *)

(** [readJsonFile]: a missing or unparseable file is reported and read as
    [null]. *)
Definition readJsonFile (filePath : string) (w : world) : value * world :=
  match files w !! filePath with
  | Some (Json v) => (v, w)
  | _ => (VNull, error ("Error reading file " +:+ filePath +:+ ":") w)
  end.

Record entry : Type := Entry {
  input : string;
  output : string;
  processor : value -> completion (list value)
}.

Definition dataFiles : list entry :=
  [Entry "data/protocols/tvl/tvl_2025-04-15T22-09-43.110634.json"
         "raw_data/protocols_tvl_raw.json" formatProtocolTvlData;
   Entry "data/dex/volumes/volumes_2025-04-15T22-09-43.495076.json"
         "raw_data/dex_volumes_raw.json" formatDexVolumeData;
   Entry "data/yields/pools/pools_2025-04-15T22-09-44.415408.json"
         "raw_data/yield_pools_raw.json" formatYieldPoolData;
   Entry "data/stablecoins/market/market_2025-04-15T22-09-44.879170.json"
         "raw_data/stablecoins_raw.json" formatStablecoinData;
   Entry "data/protocols/fees/fees_2025-04-15T22-09-45.145733.json"
         "raw_data/protocol_fees_raw.json" formatProtocolFeeData].

(** The body of the loop over [dataFiles].  A rule that throws ends the run;
    the world is as the statements before the throw left it. *)
Definition process_entry (e : entry) (w : world) : world * completion unit :=
  let w := log ("Processing " +:+ input e +:+ "...") w in
  let '(data, w) := readJsonFile (input e) w in
  if truthy data then
    match processor e data with
    | Normal formattedData =>
        if (0 <? length formattedData)%nat then
          let w := writeJson (output e) (VArr formattedData) w in
          (log ("Formatted data saved to " +:+ output e +:+ " (" +:+
                key_of_index (length formattedData) +:+ " entries)") w,
           Normal tt)
        else (log ("Warning: No data found in " +:+ input e) w, Normal tt)
    | Throw err => (w, Throw err)
    end
  else (log ("Error: Could not read " +:+ input e) w, Normal tt).

(** The line the loop prints when a category gives it nothing to write. *)
Definition nothing_written (e : entry) (data : value) : stream * string :=
  if truthy data then (Stdout, "Warning: No data found in " +:+ input e)
  else (Stdout, "Error: Could not read " +:+ input e).

Fixpoint process_entries (es : list entry) (w : world) : world * completion unit :=
  match es with
  | [] => (w, Normal tt)
  | e :: es' =>
      match process_entry e w with
      | (w', Normal _) => process_entries es' w'
      | (w', Throw err) => (w', Throw err)
      end
  end.

Definition processAllData (w : world) : world * completion unit :=
  match process_entries dataFiles w with
  | (w', Normal _) => (log "All data formatting completed!" w', Normal tt)
  | (w', Throw err) => (w', Throw err)
  end.

End DexVolume.

End Formatter.

(** ** The collector ([index.js]) *)

Module Collector.

Local Open Scope string_scope.
Local Open Scope list_scope.
Local Open Scope Z_scope.

Definition BASE_URL : string := "https://api.llama.fi".
Definition STABLECOINS_URL : string := "https://stablecoins.llama.fi".
Definition YIELDS_URL : string := "https://yields.llama.fi".

Section Network.

(** What a GET of a URL gives: the decoded body, or a failure. *)
Variable respond : string -> option value.

(** [fetchData]: a failure is reported and returned as [null]. *)
Definition fetchData (url : string) (w : world) : value * world :=
  match respond url with
  | Some body => (body, w)
  | None => (VNull, error ("Error fetching data from " +:+ url +:+ ":") w)
  end.

Definition saveData (data : value) (filename : string) (w : world) : world :=
  let w := writeJson ("./data/" +:+ filename +:+ ".json") data w in
  log ("Data saved to ./data/" +:+ filename +:+ ".json") w.

(** The common shape of the five [fetch...] functions. *)
Definition fetchCategory (announce url filename : string) (w : world)
  : value * world :=
  let w := log announce w in
  let '(data, w) := fetchData url w in
  if truthy data then (data, saveData data filename w) else (VNull, w).

Definition fetchProtocolTVL : world -> value * world :=
  fetchCategory "Fetching protocol TVL data..." (BASE_URL +:+ "/protocols")
                "protocols_tvl".

Definition fetchDEXVolumes : world -> value * world :=
  fetchCategory "Fetching DEX volume data..." (BASE_URL +:+ "/overview/dexs")
                "dex_volumes".

Definition fetchYieldPools : world -> value * world :=
  fetchCategory "Fetching yield pool data..." (YIELDS_URL +:+ "/pools")
                "yield_pools".

Definition fetchStablecoinData : world -> value * world :=
  fetchCategory "Fetching stablecoin data..." (STABLECOINS_URL +:+ "/stablecoins")
                "stablecoins".

Definition fetchFeeData : world -> value * world :=
  fetchCategory "Fetching protocol fee data..." (BASE_URL +:+ "/overview/fees")
                "protocol_fees".

Definition fetchAllData (w : world) : value * world :=
  let '(protocols, w) := fetchProtocolTVL w in
  let '(dexVolumes, w) := fetchDEXVolumes w in
  let '(yieldPools, w) := fetchYieldPools w in
  let '(stablecoins, w) := fetchStablecoinData w in
  let '(fees, w) := fetchFeeData w in
  let w := log "All data fetching completed!" w in
  (VObj [("protocolCount", or_else (optget protocols "length") (VInt 0));
         ("dexCount",
          or_else (optget (optget dexVolumes "protocols") "length") (VInt 0));
         ("poolCount", or_else (optget yieldPools "length") (VInt 0));
         ("stablecoinCount", or_else (optget stablecoins "length") (VInt 0));
         ("feeProtocolCount",
          or_else (optget (optget fees "protocols") "length") (VInt 0))],
   w).

(** [fetchProtocolDetails]: three fetches for one protocol, each of which
    may fail on its own, saved together as one document whatever came back. *)
Definition fetchProtocolDetails (protocolSlug : string) (w : world)
  : value * world :=
  let w := log ("Fetching detailed data for " +:+ protocolSlug +:+ "...") w in
  let '(tvlData, w) := fetchData (BASE_URL +:+ "/protocol/" +:+ protocolSlug) w in
  let '(volumeData, w) :=
    fetchData (BASE_URL +:+ "/summary/dexs/" +:+ protocolSlug) w in
  let '(feeData, w) :=
    fetchData (BASE_URL +:+ "/summary/fees/" +:+ protocolSlug) w in
  let protocolData :=
    VObj [("tvl", tvlData); ("volume", volumeData); ("fees", feeData)] in
  (protocolData, saveData protocolData ("protocol_" +:+ protocolSlug) w).

End Network.

(** *** What the summary counts *)

(** The decoded body of a URL, [null] when the request fails. *)
Definition payload (respond : string -> option value) (url : string) : value :=
  default VNull (respond url).

(** What a [fetch...] function hands back: the body, or [null] for a body
    that is missing or falsy. *)
Definition received (respond : string -> option value) (url : string) : value :=
  if truthy (payload respond url) then payload respond url else VNull.

(** The length of a list, zero for anything that is not one. *)
Definition list_length (v : value) : Z :=
  match v with
  | VArr l => Z.of_nat (length l)
  | _ => 0
  end.

Definition is_Some_bool {A} (o : option A) : bool :=
  match o with
  | Some _ => true
  | None => false
  end.

(** A value whose [length], if it has one, is the length of a list: a list,
    or a value without that property. *)
Definition plain (v : value) : bool :=
  match v with
  | VArr _ => true
  | VStr _ => false
  | VObj props => negb (is_Some_bool (lookup_prop "length" props))
  | _ => true
  end.

End Collector.

(** ** Sample documents

    The documents the specification's testable properties name, with a
    collection time attached, and a few malformed ones. *)

Module Samples.

Import Formatter.

Local Open Scope string_scope.
Local Open Scope list_scope.
Local Open Scope Z_scope.

(** A stand-in for [coerceTime] where a concrete run needs one: every value
    it is asked about taken as not a number.  The charts of the samples hold
    whole seconds only, so it is never asked. *)
Definition not_a_number : value -> completion (option Z) :=
  fun _ => Normal None.

Definition collected : value := VStr "2025-04-15T22:09:43.495076".

Definition metadata : string * value :=
  ("metadata", VObj [("collection_info", VObj [("timestamp", collected)])]).

(** [totalDataChart = [[1460419200, 1000000]]] *)
Definition chart_document : value :=
  VObj [("data", VObj [("totalDataChart",
                        VArr [VArr [VInt 1460419200; VInt 1000000]])]);
        metadata].

(** A protocol entry with
    [breakdown24h = {"ethereum": {"uniswap": 500, "curve": 300}}]. *)
Definition breakdown_entry : value :=
  VObj [("breakdown24h",
         VObj [("ethereum", VObj [("uniswap", VInt 500); ("curve", VInt 300)])]);
        ("total24h", VInt 800);
        ("change_1d", VInt 3);
        ("change_7dover7d", VInt (-2));
        ("change_30dover30d", VInt 11)].

Definition other_entry : value :=
  VObj [("breakdown24h", VObj [("solana", VObj [("orca", VInt 40)])])].

(** That entry, first of two. *)
Definition breakdown_document : value :=
  VObj [("data", VObj [("protocols", VArr [breakdown_entry; other_entry])]);
        metadata].

Definition tvl_document : value :=
  VObj [("data", VArr [VObj [("name", VStr "Lido"); ("tvl", VInt 100)];
                       VObj [("name", VStr "Aave"); ("tvl", VInt 50)]]);
        metadata].

(** A pool without [predictions], one with a single sub-field, one with
    all three. *)
Definition pools_document : value :=
  VObj [("data",
         VObj [("status", VStr "success");
               ("data",
                VArr [VObj [("chain", VStr "Ethereum"); ("apy", VInt 4)];
                      VObj [("chain", VStr "Base");
                            ("predictions",
                             VObj [("predictedClass", VStr "Stable/Up")])];
                      VObj [("chain", VStr "Arbitrum");
                            ("predictions",
                             VObj [("predictedClass", VStr "Down");
                                   ("predictedProbability", VInt 77);
                                   ("binnedConfidence", VInt 2)])]])]);
        metadata].

(** A protocol list in a document that declares no collection time. *)
Definition no_metadata_document : value :=
  VObj [("data", VArr [VObj [("name", VStr "Lido")]])].

(** A document without its [data] field. *)
Definition no_data_document : value :=
  VObj [metadata].

(** The breakdown of [breakdown_entry] in a document that declares no
    collection time. *)
Definition breakdown_only_document : value :=
  VObj [("data", VObj [("protocols", VArr [breakdown_entry])])].

(** The chart of [chart_document] and nothing else. *)
Definition chart_only_document : value :=
  VObj [("data", VObj [("totalDataChart",
                        VArr [VArr [VInt 1460419200; VInt 1000000]])])].

(** A first protocol entry with totals, in a document that declares no
    collection time. *)
Definition summary_only_document : value :=
  VObj [("data", VObj [("protocols", VArr [VObj [("total24h", VInt 800)]])])].

(** The DEX entry of the driver's table. *)
Definition dex_entry : entry :=
  Entry "data/dex/volumes/volumes_2025-04-15T22-09-43.495076.json"
        "raw_data/dex_volumes_raw.json" (formatDexVolumeData not_a_number).

(** A world after an earlier run: the TVL input is in place, the DEX input
    has lost its [data], the other inputs are gone, and the DEX output of the
    earlier run is still there. *)
Definition stale_world : world :=
  World (<["data/protocols/tvl/tvl_2025-04-15T22-09-43.110634.json"
             := Json tvl_document]>
         (<["data/dex/volumes/volumes_2025-04-15T22-09-43.495076.json"
              := Json no_data_document]>
          (<["raw_data/dex_volumes_raw.json" := Json (VArr [VStr "earlier"])]> ∅)))
        [].

(** A fee list in a document that declares no collection time. *)
Definition fees_without_metadata : value :=
  VObj [("data", VObj [("protocols", VArr [VObj [("name", VStr "Lido")]])])].

(** A world in which the last category makes its rule throw: the first two
    inputs are those of [stale_world], the pools and the stablecoins are not
    there, and the fee list comes without a collection time. *)
Definition late_throw_world : world :=
  World (<["data/protocols/fees/fees_2025-04-15T22-09-45.145733.json"
             := Json fees_without_metadata]> (files stale_world))
        [].

(** A world in which the second category makes its rule throw: the DEX
    input holds a chart and no collection time, and no other input is
    there. *)
Definition cut_short_world : world :=
  World (<["data/dex/volumes/volumes_2025-04-15T22-09-43.495076.json"
             := Json chart_only_document]> ∅)
        [].

(** A network on which only the pools arrive, as an object that is no list
    but has a [length] of its own. *)
Definition odd_network (url : string) : option value :=
  if String.eqb url "https://yields.llama.fi/pools" then
    Some (VObj [("status", VStr "success"); ("length", VInt 7)])
  else None.

(** A network on which the protocol list and the DEX overview arrive, the
    pools arrive wrapped in an object, the stablecoin request fails and the
    fee overview has lost its list. *)
Definition sample_network (url : string) : option value :=
  if String.eqb url "https://api.llama.fi/protocols" then
    Some (VArr [VObj [("name", VStr "Lido")]; VObj [("name", VStr "Aave")];
                VObj [("name", VStr "Maker")]])
  else if String.eqb url "https://api.llama.fi/overview/dexs" then
    Some (VObj [("protocols", VArr [breakdown_entry; other_entry])])
  else if String.eqb url "https://yields.llama.fi/pools" then
    Some (VObj [("status", VStr "success"); ("data", VArr [VObj []])])
  else if String.eqb url "https://api.llama.fi/overview/fees" then
    Some (VObj [("totalDataChart", VArr [])])
  else None.

End Samples.

(** ** Further shapes and samples *)

Module Further.

Import Formatter Collector Samples.

Local Open Scope string_scope.
Local Open Scope list_scope.
Local Open Scope Z_scope.

(** An element a list rule can read properties of. *)
Definition present (v : value) : bool := negb (nullish v).

(** A stablecoin list with a [null] in it. *)
Definition holed_document : value :=
  VObj [("data", VObj [("peggedAssets",
                        VArr [VObj [("name", VStr "Tether")]; VNull])]);
        metadata].

(** An empty fee list in a document that declares no collection time. *)
Definition empty_fees_document : value :=
  VObj [("data", VObj [("protocols", VArr [])])].

(** An entry of the chart whose seconds give no date: no seconds at all,
    or whole seconds beyond the range of dates. *)
Definition is_dateless (e : value) : bool :=
  match e with
  | VArr [] | VArr (VUndef :: _) => true
  | VArr (VNum n :: _) =>
      match whole n with
      | Some ts => negb (Z.abs (ts * 1000) <=? 8640000000000000)
      | None => false
      end
  | _ => false
  end.

(** An entry of the chart that an array pattern cannot be bound to. *)
Definition is_unbindable (e : value) : bool :=
  match e with
  | VArr _ | VStr _ => false
  | _ => true
  end.

(** A chart whose second point has lost its seconds. *)
Definition dateless_document : value :=
  VObj [("data", VObj [("totalDataChart",
                        VArr [VArr [VInt 1460419200; VInt 1000000];
                              VArr []; VArr [VInt 1460505600; VInt 7]])]);
        metadata].

(** A chart that is an object, not a list. *)
Definition keyed_chart_document : value :=
  VObj [("data", VObj [("totalDataChart",
                        VObj [("1460419200", VInt 1000000)])]);
        metadata].

(** A breakdown in which one chain maps to [null]. *)
Definition null_chain_document : value :=
  VObj [("data",
         VObj [("protocols",
                VArr [VObj [("breakdown24h",
                             VObj [("ethereum", VObj [("uniswap", VInt 500)]);
                                   ("solana", VNull)])]])]);
        metadata].

(** A DEX document with [data] but neither chart nor protocols. *)
Definition bare_document : value :=
  VObj [("data", VObj [("allChains", VArr [VStr "Ethereum"])]); metadata].

(** [breakdown_document] with another second entry and one more field. *)
Definition breakdown_variant : value :=
  VObj [("data",
         VObj [("allChains", VArr [VStr "Ethereum"]);
               ("protocols",
                VArr [breakdown_entry; VObj [("name", VStr "Orca")]; VNull])]);
        metadata].

(** Two points of a chart, a day apart. *)
Definition two_points_document : value :=
  VObj [("data", VObj [("totalDataChart",
                        VArr [VArr [VInt 1460419200; VInt 1000000];
                              VArr [VInt 1460505600; VNull]]);
                       ("protocols", VArr [breakdown_entry])]);
        metadata].

(** The TVL entry of the driver's table. *)
Definition tvl_entry : entry :=
  Entry "data/protocols/tvl/tvl_2025-04-15T22-09-43.110634.json"
        "raw_data/protocols_tvl_raw.json" formatProtocolTvlData.

(** A world in which the DEX input makes its rule throw. *)
Definition throwing_world : world :=
  World (<["data/dex/volumes/volumes_2025-04-15T22-09-43.495076.json"
             := Json keyed_chart_document]>
         (<["data/protocols/fees/fees_2025-04-15T22-09-45.145733.json"
              := Json tvl_document]> ∅))
        [].

(** The file [saveData] writes for a name. *)
Definition data_file (filename : string) : string :=
  "./data/" +:+ filename +:+ ".json".

(** The five categories of [fetchAllData]: announcement, URL and file name,
    in the order they are fetched. *)
Definition categories : list (string * string * string) :=
  [("Fetching protocol TVL data...", BASE_URL +:+ "/protocols", "protocols_tvl");
   ("Fetching DEX volume data...", BASE_URL +:+ "/overview/dexs", "dex_volumes");
   ("Fetching yield pool data...", YIELDS_URL +:+ "/pools", "yield_pools");
   ("Fetching stablecoin data...", STABLECOINS_URL +:+ "/stablecoins",
    "stablecoins");
   ("Fetching protocol fee data...", BASE_URL +:+ "/overview/fees",
    "protocol_fees")].

(** The three URLs [fetchProtocolDetails] asks for. *)
Definition detail_urls (protocolSlug : string) : list string :=
  [BASE_URL +:+ "/protocol/" +:+ protocolSlug;
   BASE_URL +:+ "/summary/dexs/" +:+ protocolSlug;
   BASE_URL +:+ "/summary/fees/" +:+ protocolSlug].

(** A path as the file system takes it: a leading [./] means nothing. *)
Definition plain_path (path : string) : string :=
  match path with
  | String "." (String "/" rest) => rest
  | _ => path
  end.

(** The lines a category adds to the console: its announcement, then the
    report of a failed request, or the report of the save of a truthy body,
    or nothing for a body that arrived falsy. *)
Definition category_lines (respond : string -> option value)
    (c : string * string * string) : list (stream * string) :=
  let '(announce, url, filename) := c in
  (Stdout, announce)
  :: match respond url with
     | None => [(Stderr, "Error fetching data from " +:+ url +:+ ":")]
     | Some body =>
         if truthy body then [(Stdout, "Data saved to " +:+ data_file filename)]
         else []
     end.

(** The world after a run of categories, one after the other. *)
Definition collect (respond : string -> option value)
    (cs : list (string * string * string)) (w : world) : world :=
  foldl (fun w c => (fetchCategory respond c.1.1 c.1.2 c.2 w).2) w cs.

(** What [fetchProtocolDetails] puts together for a protocol. *)
Definition details_document (respond : string -> option value)
    (protocolSlug : string) : value :=
  VObj [("tvl", payload respond (BASE_URL +:+ "/protocol/" +:+ protocolSlug));
        ("volume",
         payload respond (BASE_URL +:+ "/summary/dexs/" +:+ protocolSlug));
        ("fees",
         payload respond (BASE_URL +:+ "/summary/fees/" +:+ protocolSlug))].

(** The file [fetchProtocolDetails] saves a protocol to. *)
Definition details_file (protocolSlug : string) : string :=
  data_file ("protocol_" +:+ protocolSlug).

(** The table of output and source names of a list rule. *)
Definition rule_fields (r : rule) : list (string * string) :=
  match r with
  | ProtocolTvl => protocol_tvl_fields
  | DexVolume => []
  | YieldPool => yield_pool_fields
  | Stablecoin => stablecoin_fields
  | ProtocolFee => protocol_fee_fields
  end.

(** What [JSON.stringify] makes of a property: nothing when it holds
    [undefined]. *)
Definition written (x : value) : option value :=
  match x with
  | VUndef => None
  | _ => Some (serialized x)
  end.

(** A world that holds an earlier download of the stablecoins. *)
Definition earlier_world : world :=
  World (<["./data/stablecoins.json" := Json (VArr [VStr "earlier"])]> ∅) [].

(** A network that is down. *)
Definition no_network (url : string) : option value := None.

(** A world that holds details of a protocol saved earlier. *)
Definition details_world : world :=
  World (<["./data/protocol_uniswap.json"
             := Json (VObj [("tvl", VArr [VInt 1]); ("volume", VInt 2);
                            ("fees", VInt 3)])]> ∅)
        [].

End Further.

(** * Properties *)

Import Formatter.

Local Open Scope string_scope.
Local Open Scope list_scope.
Local Open Scope Z_scope.

(** ** Dates: the calendar against known instants *)

Example iso_epoch : iso_text 0 = "1970-01-01T00:00:00.000Z"%string.
Proof. reflexivity. Qed.

Example iso_2016 : iso_text 1460419200000 = "2016-04-12T00:00:00.000Z"%string.
Proof. reflexivity. Qed.

Example iso_leap : iso_text 1709251199999 = "2024-02-29T23:59:59.999Z"%string.
Proof. reflexivity. Qed.

Example iso_before : iso_text (-1) = "1969-12-31T23:59:59.999Z"%string.
Proof. reflexivity. Qed.

Example iso_max : iso_text 8640000000000000 = "+275760-09-13T00:00:00.000Z"%string.
Proof. reflexivity. Qed.

Example iso_min : iso_text (-8640000000000000) = "-271821-04-20T00:00:00.000Z"%string.
Proof. reflexivity. Qed.

Example iso_bc : iso_text (-62198755200000) = "-000001-01-01T00:00:00.000Z"%string.
Proof. reflexivity. Qed.

(** ** The language layer *)

Section Language.

Lemma truthy_not_nullish v : truthy v = true -> nullish v = false.
Proof. by destruct v. Qed.

Lemma get_present v k : nullish v = false -> get v k = Normal (prop v k).
Proof. unfold get. by intros ->. Qed.

Lemma get_truthy v k : truthy v = true -> get v k = Normal (prop v k).
Proof. intros H. by apply get_present, truthy_not_nullish. Qed.

Lemma optget_present v k : nullish v = false -> optget v k = prop v k.
Proof. unfold optget. by intros ->. Qed.

Lemma optget_nullish v k : nullish v = true -> optget v k = VUndef.
Proof. unfold optget. by intros ->. Qed.

Lemma prop_nullish v k : nullish v = true -> prop v k = VUndef.
Proof. by destruct v. Qed.

(** On any value, the optional read is the plain one with [undefined] for
    the two values that have no properties. *)
Lemma optget_prop v k : optget v k = prop v k.
Proof.
  destruct (nullish v) eqn:E.
  - by rewrite optget_nullish, prop_nullish.
  - by apply optget_present.
Qed.

Lemma bind_normal {A B} (c : completion A) (k : A -> completion B) b :
  bind c k = Normal b -> exists a, c = Normal a /\ k a = Normal b.
Proof. destruct c as [a|e]; simpl; [eauto | discriminate]. Qed.

Lemma mapM_length {A B} (f : A -> completion B) l out :
  mapM f l = Normal out -> length out = length l.
Proof.
  revert out. induction l as [|x l IH]; simpl; intros out H.
  - by injection H as <-.
  - apply bind_normal in H as (y & _ & H).
    apply bind_normal in H as (ys & Hys & H).
    injection H as <-. simpl. f_equal. by apply IH.
Qed.

(** A body that throws on no element of the list makes [map] the plain map. *)
Lemma mapM_pure {A B} (f : A -> completion B) (g : A -> B) l :
  Forall (fun x => f x = Normal (g x)) l -> mapM f l = Normal (map g l).
Proof.
  induction 1 as [|x l Hx _ IH]; simpl; [done|].
  by rewrite Hx, IH.
Qed.

(** A loop whose body only pushes one record per element. *)
Lemma foldM_push {A} (f : list value -> A -> completion (list value))
    (g : A -> value) l :
  (forall acc x, x ∈ l -> f acc x = Normal (acc ++ [g x])) ->
  forall acc, foldM f acc l = Normal (acc ++ map g l).
Proof.
  induction l as [|x l IH]; simpl; intros Hf acc.
  - by rewrite app_nil_r.
  - rewrite Hf by left. simpl. rewrite IH.
    + by rewrite <- app_assoc.
    + intros acc' y Hy. apply Hf. by right.
Qed.

Lemma fields_present src spec :
  nullish src = false ->
  fields src spec = Normal (map (fun '(out, k) => (out, prop src k)) spec).
Proof.
  intros H. unfold fields. apply mapM_pure.
  apply Forall_forall. intros [out k] _. by rewrite get_present.
Qed.

(** Reading along a path agrees with [read] as long as it does not throw. *)
Lemma path_read v ks x : path v ks = Normal x -> x = read v ks.
Proof.
  revert v. induction ks as [|k ks IH]; simpl; intros v H.
  - by injection H.
  - apply bind_normal in H as (y & Hy & H). apply IH in H as ->.
    unfold get in Hy. destruct (nullish v) eqn:E; [done|].
    injection Hy as <-. by rewrite optget_present.
Qed.

Lemma read_undef ks : read VUndef ks = VUndef.
Proof. induction ks; simpl; [done|]. by rewrite optget_nullish. Qed.

Lemma read_nullish v ks : nullish v = true -> nullish (read v ks) = true.
Proof.
  intros H. destruct ks as [|k ks]; simpl; [done|].
  by rewrite optget_nullish, read_undef.
Qed.

(** A path that ends on a value other than [undefined] and [null] is read
    without a throw. *)
Lemma path_present v ks :
  nullish v = false -> nullish (read v ks) = false -> path v ks = Normal (read v ks).
Proof.
  revert v. induction ks as [|k ks IH]; simpl; intros v Hv H; [done|].
  rewrite get_present by done. simpl. rewrite optget_present in H |- * by done.
  apply IH; [|done].
  destruct (nullish (prop v k)) eqn:E; [|done].
  by rewrite (read_nullish _ ks E) in H.
Qed.

End Language.

(** ** The opening check of each rule *)

Section Guards.

Variable coerceTime : value -> completion (option Z).

(** Only a truthy value has a property that holds an array. *)
Lemma array_prop_truthy v k l : prop v k = VArr l -> truthy v = true.
Proof.
  destruct v as [| |b|n|s|es|ps]; simpl; try done.
  destruct s as [|c s]; [|done]. simpl.
  destruct (String.eqb k "length"); [done|].
  unfold element. by destruct (index_of_key k) as [[|i]|].
Qed.

Lemma path2 doc k1 k2 :
  truthy doc = true -> truthy (prop doc k1) = true ->
  path doc [k1; k2] = Normal (prop (prop doc k1) k2).
Proof.
  intros H1 H2. simpl. rewrite (get_truthy _ _ H1). simpl.
  by rewrite (get_truthy _ _ H2).
Qed.

Lemma read1 doc k : read doc [k] = prop doc k.
Proof. simpl. apply optget_prop. Qed.

Lemma read2 doc k1 k2 : read doc [k1; k2] = prop (prop doc k1) k2.
Proof. simpl. by rewrite !optget_prop. Qed.

(** Case analysis on the two tests every rule starts with. *)
Ltac unfold_tests := unfold orM, notM, notArrayM, falsy; simpl.

Ltac split_guard doc :=
  destruct (truthy doc) eqn:Hdoc;
    [ rewrite ?(get_truthy doc) by done;
      destruct (truthy (prop doc "data")) eqn:Hdata;
        [ rewrite ?(path2 doc) by done | ];
      unfold_tests; rewrite ?Hdoc, ?Hdata; simpl
    | unfold_tests; rewrite ?Hdoc; simpl ].

Lemma tvl_rejects doc :
  lacks_container ProtocolTvl doc = true -> formatProtocolTvlData doc = Normal [].
Proof.
  unfold lacks_container, formatProtocolTvlData. simpl container_path.
  rewrite read1, optget_prop. intros H. split_guard doc; try done.
  rewrite ?Hdoc, ?Hdata in H. simpl in H. by rewrite H.
Qed.

Lemma tvl_accepts doc l body :
  truthy doc = true -> prop doc "data" = VArr l ->
  (c <- falsy doc ||| notM (get doc "data") ||| notArrayM (get doc "data") ;;
   if c then Normal [] else d <- get doc "data" ;; array_map body d)
  = mapM body l.
Proof.
  intros Hdoc Hl. rewrite !(get_truthy doc) by done.
  unfold orM, notM, notArrayM, falsy. simpl. by rewrite Hdoc, Hl.
Qed.

Lemma dex_rejects doc :
  lacks_container DexVolume doc = true ->
  formatDexVolumeData coerceTime doc = Normal [].
Proof.
  unfold lacks_container, formatDexVolumeData. simpl expects_list.
  rewrite optget_prop, orb_false_r. intros H. by split_guard doc.
Qed.

Lemma yield_rejects doc :
  lacks_container YieldPool doc = true -> formatYieldPoolData doc = Normal [].
Proof.
  unfold lacks_container, formatYieldPoolData. simpl container_path.
  rewrite read2, optget_prop. intros H. split_guard doc; try done.
  rewrite ?Hdoc, ?Hdata in H. simpl in H.
  destruct (truthy (prop (prop doc "data") "data")); simpl; [|done].
  by rewrite H.
Qed.

Lemma nested_accepts doc k l body :
  truthy doc = true -> prop (prop doc "data") k = VArr l ->
  (c <- falsy doc ||| notM (get doc "data") ||| notM (path doc ["data"; k])
        ||| notArrayM (path doc ["data"; k]) ;;
   if c then Normal [] else xs <- path doc ["data"; k] ;; array_map body xs)
  = mapM body l.
Proof.
  intros Hdoc Hl.
  assert (Hdata : truthy (prop doc "data") = true)
    by by eapply array_prop_truthy.
  rewrite !(path2 doc) by done. rewrite !(get_truthy doc) by done.
  unfold orM, notM, notArrayM, falsy. simpl. by rewrite Hdoc, Hdata, Hl.
Qed.

Lemma stablecoin_rejects doc :
  lacks_container Stablecoin doc = true -> formatStablecoinData doc = Normal [].
Proof.
  unfold lacks_container, formatStablecoinData. simpl container_path.
  rewrite read2, optget_prop. intros H. split_guard doc; try done.
  rewrite ?Hdoc, ?Hdata in H. simpl in H.
  destruct (truthy (prop (prop doc "data") "peggedAssets")); simpl; [|done].
  by rewrite H.
Qed.

Lemma fee_accepts doc l body :
  truthy doc = true -> prop (prop doc "data") "protocols" = VArr l ->
  (c <- falsy doc ||| notM (get doc "data")
        ||| notArrayM (path doc ["data"; "protocols"]) ;;
   if c then Normal [] else xs <- path doc ["data"; "protocols"] ;; array_map body xs)
  = mapM body l.
Proof.
  intros Hdoc Hl.
  assert (Hdata : truthy (prop doc "data") = true)
    by by eapply array_prop_truthy.
  rewrite !(path2 doc) by done. rewrite !(get_truthy doc) by done.
  unfold orM, notM, notArrayM, falsy. simpl. by rewrite Hdoc, Hdata, Hl.
Qed.

Lemma fee_rejects doc :
  lacks_container ProtocolFee doc = true -> formatProtocolFeeData doc = Normal [].
Proof.
  unfold lacks_container, formatProtocolFeeData. simpl container_path.
  rewrite read2, optget_prop. intros H. split_guard doc; try done.
  rewrite ?Hdoc, ?Hdata in H. simpl in H. by rewrite H.
Qed.

End Guards.

(** ** The four list rules on well-formed documents *)

Section ListRules.

Lemma object_present v : is_object v = true -> nullish v = false.
Proof. by destruct v. Qed.

Lemma object_truthy v : is_object v = true -> truthy v = true.
Proof. by destruct v. Qed.

Lemma declared_time_read doc :
  has_declared_time doc = true ->
  collection_timestamp doc = Normal (declared_time doc).
Proof.
  unfold has_declared_time. intros [Ho Ht]%andb_prop.
  apply path_present; [by apply object_present | by apply negb_true_iff].
Qed.

Lemma map_rule_body (f : value -> completion value) g l :
  forallb is_object l = true ->
  (forall x, is_object x = true -> f x = Normal (g x)) ->
  mapM f l = Normal (map g l).
Proof.
  intros Hl Hf. apply mapM_pure, Forall_forall. intros x Hx. apply Hf.
  rewrite forallb_forall in Hl. apply Hl. by apply list_elem_of_In.
Qed.

Lemma tvl_well_formed doc l :
  has_declared_time doc = true -> prop doc "data" = VArr l ->
  forallb is_object l = true ->
  formatProtocolTvlData doc
  = Normal (map (record_of (declared_time doc) protocol_tvl_fields) l).
Proof.
  intros Ht Hd Hl. unfold formatProtocolTvlData.
  rewrite (tvl_accepts doc l); [|apply object_truthy; by apply andb_prop in Ht as []|done].
  apply map_rule_body; [done|]. intros x Hx.
  rewrite declared_time_read by done. simpl bind.
  by rewrite fields_present by by apply object_present.
Qed.

Lemma predictions_present pool :
  nullish pool = false -> predictions_of pool = Normal (predictions_record pool).
Proof. intros H. unfold predictions_of. by rewrite !get_present. Qed.

Lemma yield_well_formed doc l :
  has_declared_time doc = true -> prop (prop doc "data") "data" = VArr l ->
  forallb is_object l = true ->
  formatYieldPoolData doc = Normal (map (yield_record (declared_time doc)) l).
Proof.
  intros Ht Hd Hl. unfold formatYieldPoolData.
  rewrite (nested_accepts doc "data" l);
    [|apply object_truthy; by apply andb_prop in Ht as []|done].
  apply map_rule_body; [done|]. intros x Hx%object_present.
  rewrite declared_time_read by done. simpl bind.
  rewrite fields_present by done. simpl bind.
  by rewrite predictions_present.
Qed.

Lemma stablecoin_well_formed doc l :
  has_declared_time doc = true -> prop (prop doc "data") "peggedAssets" = VArr l ->
  forallb is_object l = true ->
  formatStablecoinData doc
  = Normal (map (record_of (declared_time doc) stablecoin_fields) l).
Proof.
  intros Ht Hd Hl. unfold formatStablecoinData.
  rewrite (nested_accepts doc "peggedAssets" l);
    [|apply object_truthy; by apply andb_prop in Ht as []|done].
  apply map_rule_body; [done|]. intros x Hx%object_present.
  rewrite declared_time_read by done. simpl bind.
  by rewrite fields_present.
Qed.

Lemma fee_well_formed doc l :
  has_declared_time doc = true -> prop (prop doc "data") "protocols" = VArr l ->
  forallb is_object l = true ->
  formatProtocolFeeData doc
  = Normal (map (record_of (declared_time doc) protocol_fee_fields) l).
Proof.
  intros Ht Hd Hl. unfold formatProtocolFeeData.
  rewrite (fee_accepts doc l);
    [|apply object_truthy; by apply andb_prop in Ht as []|done].
  apply map_rule_body; [done|]. intros x Hx%object_present.
  rewrite declared_time_read by done. simpl bind.
  by rewrite fields_present.
Qed.

End ListRules.

(** ** The DEX volume rule, section by section *)

Section DexRule.

Variable coerceTime : value -> completion (option Z).

Local Arguments path : simpl never.

Lemma path3 doc k1 k2 k3 :
  truthy doc = true -> truthy (prop doc k1) = true ->
  truthy (prop (prop doc k1) k2) = true ->
  path doc [k1; k2; k3] = Normal (prop (prop (prop doc k1) k2) k3).
Proof.
  intros H1 H2 H3. unfold path. rewrite (get_truthy _ _ H1). simpl.
  rewrite (get_truthy _ _ H2). simpl. by rewrite (get_truthy _ _ H3).
Qed.

Lemma path4 doc k1 k2 k3 k4 :
  truthy doc = true -> truthy (prop doc k1) = true ->
  truthy (prop (prop doc k1) k2) = true ->
  truthy (prop (prop (prop doc k1) k2) k3) = true ->
  path doc [k1; k2; k3; k4] = Normal (prop (prop (prop (prop doc k1) k2) k3) k4).
Proof.
  intros H1 H2 H3 H4. unfold path. rewrite (get_truthy _ _ H1). simpl.
  rewrite (get_truthy _ _ H2). simpl. rewrite (get_truthy _ _ H3). simpl.
  by rewrite (get_truthy _ _ H4).
Qed.

(** A falsy value has no property but, for the empty string, [length]. *)
Lemma prop_falsy v k :
  truthy v = false -> String.eqb k "length" = false -> prop v k = VUndef.
Proof.
  intros Hv Hk. destruct v as [| |b|n|s|l|props]; try done.
  destruct s as [|c s]; [|done]. simpl. rewrite Hk.
  unfold element. by destruct (index_of_key k).
Qed.

Lemma props_of_falsy v : truthy v = false -> props_of v = [].
Proof.
  destruct v as [| |b|n|s|l|props]; try done. by destruct s.
Qed.

Lemma entries_present v : nullish v = false -> entries v = Normal (props_of v).
Proof. by destruct v. Qed.

(** *** The chart *)

Lemma chart_point_record entry record :
  chart_point coerceTime entry = Normal record ->
  exists iso volume, record = historical_total iso volume.
Proof.
  unfold chart_point. intros ([ts volume] & _ & H)%bind_normal.
  apply bind_normal in H as (t & _ & H).
  apply bind_normal in H as (iso & _ & H). injection H as <-. eauto.
Qed.

Lemma chart_point_of_point entry :
  is_point entry = true ->
  exists record,
    chart_point coerceTime entry = Normal record /\ point_record entry = [record].
Proof.
  destruct entry as [| | | | |[|[| |?|n| | |] [|volume [|? ?]]]|]; try done.
  unfold chart_point. simpl.
  destruct (whole n) as [ts|]; [|done]. intros Hts. simpl.
  unfold TimeClip. rewrite Hts. by eexists.
Qed.

(** The loop pushes the records of the entries, in order, or throws where
    one of them does. *)
Lemma chart_loop es acc :
  foldM (fun acc entry =>
           record <- chart_point coerceTime entry ;; Normal (acc ++ [record]))
        acc es
  = (records <- mapM (chart_point coerceTime) es ;; Normal (acc ++ records)).
Proof.
  revert acc. induction es as [|e es IH]; simpl; intros acc.
  - by rewrite app_nil_r.
  - destruct (chart_point coerceTime e) as [record|err]; simpl; [|done].
    rewrite IH. destruct (mapM (chart_point coerceTime) es); simpl; [|done].
    by rewrite <- app_assoc.
Qed.

Lemma mapM_chart_records es records :
  mapM (chart_point coerceTime) es = Normal records ->
  Forall (fun record => exists iso volume, record = historical_total iso volume)
         records.
Proof.
  revert records. induction es as [|e es IH]; simpl; intros records H.
  - injection H as <-. constructor.
  - apply bind_normal in H as (record & Hr & H).
    apply bind_normal in H as (rest & Hrest & H). injection H as <-.
    constructor; [by eapply chart_point_record | by apply IH].
Qed.

Lemma mapM_chart_points es :
  forallb is_point es = true ->
  mapM (chart_point coerceTime) es = Normal (flat_map point_record es).
Proof.
  induction es as [|e es IH]; simpl; intros Hes; [done|].
  apply andb_prop in Hes as [He Hes].
  destruct (chart_point_of_point e He) as (record & -> & ->). simpl.
  by rewrite IH.
Qed.

Section Accepted.

(** A document that passes the opening check. *)
Variable doc : value.
Hypothesis Hdoc : truthy doc = true.
Hypothesis Hdata : truthy (prop doc "data") = true.

Lemma historical_section_records records :
  historical_section coerceTime doc [] = Normal records ->
  Forall (fun record => exists iso volume, record = historical_total iso volume)
         records.
Proof.
  unfold historical_section. rewrite path2 by done. simpl bind.
  destruct (truthy (prop (prop doc "data") "totalDataChart"));
    [|intros [= <-]; constructor].
  destruct (prop (prop doc "data") "totalDataChart"); try done.
  simpl forEach. rewrite chart_loop.
  intros (rs & Hrs & [= <-])%bind_normal. by eapply mapM_chart_records.
Qed.

Lemma historical_section_points :
  optional (is_list_of is_point) (prop (prop doc "data") "totalDataChart") = true ->
  historical_section coerceTime doc [] = Normal (historical_of doc).
Proof.
  unfold historical_section, historical_of. rewrite path2, read2 by done.
  simpl bind.
  destruct (prop (prop doc "data") "totalDataChart") as [| | | | |es|]; try done.
  simpl. intros Hes. by rewrite chart_loop, mapM_chart_points.
Qed.

(** *** The first protocol entry *)

Lemma first_protocol_value : first_protocol doc = Normal (first_or_falsy doc).
Proof.
  unfold first_protocol, first_or_falsy. rewrite path2, read2 by done.
  simpl bind. destruct (truthy (prop (prop doc "data") "protocols")) eqn:Hp;
    [|done].
  by rewrite path3.
Qed.

Lemma first_entry_none :
  first_entry doc = None ->
  forall ts acc,
    dex_section doc ts acc = Normal acc /\ summary_section doc ts acc = Normal acc.
Proof.
  unfold first_entry. intros Hn ts acc.
  unfold dex_section, summary_section. rewrite first_protocol_value. simpl.
  by destruct (truthy (first_or_falsy doc)).
Qed.

Section FirstEntry.

(** The test [data.data.protocols && data.data.protocols[0]] lets [p0]
    through. *)
Variable p0 : value.
Hypothesis Hp0 : first_entry doc = Some p0.

Lemma first_entry_value : first_or_falsy doc = p0 /\ truthy p0 = true.
Proof.
  unfold first_entry in Hp0.
  destruct (truthy (first_or_falsy doc)) eqn:E; [|done].
  injection Hp0 as <-. by split.
Qed.

Lemma first_entry_list :
  truthy (prop (prop doc "data") "protocols") = true
  /\ prop (prop (prop doc "data") "protocols") "0" = p0.
Proof.
  destruct first_entry_value as [Hv Ht]. unfold first_or_falsy in Hv.
  rewrite read2 in Hv.
  destruct (truthy (prop (prop doc "data") "protocols")) eqn:E; [done|].
  rewrite Hv in E. congruence.
Qed.

Lemma entry_read k :
  path doc ["data"; "protocols"; "0"; k] = Normal (prop p0 k).
Proof.
  destruct first_entry_list as [Hps Hfirst], first_entry_value as [_ Ht].
  rewrite path4; rewrite ?Hfirst; done.
Qed.

Lemma entry_itself : path doc ["data"; "protocols"; "0"] = Normal p0.
Proof.
  destruct first_entry_list as [Hps Hfirst].
  rewrite path3; rewrite ?Hfirst; done.
Qed.

Lemma first_protocol_entry : first_protocol doc = Normal p0.
Proof. rewrite first_protocol_value. by destruct first_entry_value as [-> _]. Qed.

Lemma push_dex_entry ts chain acc e :
  push_dex doc ts chain acc e
  = Normal (acc ++ [dex_record ts p0 (chain, e.1, e.2)]).
Proof. destruct e as [dexName volume]. unfold push_dex. by rewrite !entry_read. Qed.

Lemma push_chain_entry ts acc entry :
  push_chain doc ts acc entry
  = if nullish entry.2 then Throw TypeError
    else Normal (acc ++ chain_records ts p0 entry).
Proof.
  destruct entry as [chain dexes]. unfold push_chain, chain_records. simpl.
  destruct (nullish dexes) eqn:Hn; [by destruct dexes|].
  rewrite entries_present by done. simpl bind.
  apply foldM_push. intros acc' e _. apply push_dex_entry.
Qed.

Lemma chain_records_pairs ts chains :
  flat_map (chain_records ts p0) chains
  = map (dex_record ts p0)
        (flat_map (fun '(chain, dexes) =>
                     map (fun '(dexName, volume) => (chain, dexName, volume))
                         (props_of dexes)) chains).
Proof.
  induction chains as [|[chain dexes] chains IH]; simpl; [done|].
  rewrite map_app, IH. f_equal. unfold chain_records. simpl.
  rewrite map_map. apply map_ext. by intros [dexName volume].
Qed.

(** The outer loop pushes the records of every chain, or throws at the
    first chain that maps to [null]. *)
Lemma dex_loop ts chains acc :
  foldM (push_chain doc ts) acc chains
  = if forallb (fun entry => negb (nullish entry.2)) chains
    then Normal (acc ++ flat_map (chain_records ts p0) chains)
    else Throw TypeError.
Proof.
  revert acc. induction chains as [|entry chains IH]; intros acc.
  - simpl. by rewrite app_nil_r.
  - change (foldM ?f acc (?x :: ?l)) with (acc' <- f acc x ;; foldM f acc' l).
    rewrite push_chain_entry. simpl forallb.
    destruct (nullish entry.2); simpl; [done|].
    rewrite IH. destruct (forallb _ chains); [|done].
    by rewrite <- app_assoc.
Qed.

Lemma dex_section_entry ts acc :
  dex_section doc ts acc
  = if forallb (fun entry => negb (nullish entry.2))
               (props_of (prop p0 "breakdown24h"))
    then Normal (acc ++ map (dex_record ts p0) (pairs_of (prop p0 "breakdown24h")))
    else Throw TypeError.
Proof.
  destruct first_entry_value as [_ Ht].
  unfold dex_section. rewrite first_protocol_entry. simpl bind.
  rewrite Ht, entry_read. simpl bind.
  destruct (truthy (prop p0 "breakdown24h")) eqn:Hb.
  - rewrite entries_present by by apply truthy_not_nullish. simpl bind.
    rewrite dex_loop. unfold pairs_of. by rewrite chain_records_pairs.
  - unfold pairs_of. rewrite props_of_falsy by done. simpl.
    by rewrite app_nil_r.
Qed.

Lemma summary_section_entry ts acc :
  summary_section doc ts acc = Normal (acc ++ [volume_summary ts p0]).
Proof.
  destruct first_entry_value as [_ Ht].
  unfold summary_section. rewrite first_protocol_entry. simpl bind.
  rewrite Ht, entry_itself. simpl bind.
  by rewrite fields_present by by apply truthy_not_nullish.
Qed.

End FirstEntry.

(** The last two sections, when they return. *)
Lemma late_sections_result acc out :
  (formattedData <- dex_section doc (declared_time doc) acc ;;
   summary_section doc (declared_time doc) formattedData) = Normal out ->
  out = acc ++ dex_specific_of doc ++ summary_of doc.
Proof.
  unfold dex_specific_of, summary_of.
  destruct (first_entry doc) as [p0|] eqn:Hp0.
  - rewrite (dex_section_entry p0 Hp0). destruct (forallb _ _); [|done].
    simpl bind. rewrite (summary_section_entry p0 Hp0).
    intros [= <-]. by rewrite <- app_assoc.
  - destruct (first_entry_none Hp0 (declared_time doc) acc) as [-> _].
    simpl bind.
    destruct (first_entry_none Hp0 (declared_time doc) acc) as [_ ->].
    intros [= <-]. by rewrite app_nil_r.
Qed.

(** They return when no chain of the first entry maps to [null]. *)
Lemma late_sections_total acc :
  match first_entry doc with
  | Some p0 => optional (is_map_of is_object) (prop p0 "breakdown24h") = true
  | None => True
  end ->
  (formattedData <- dex_section doc (declared_time doc) acc ;;
   summary_section doc (declared_time doc) formattedData)
  = Normal (acc ++ dex_specific_of doc ++ summary_of doc).
Proof.
  unfold dex_specific_of, summary_of.
  destruct (first_entry doc) as [p0|] eqn:Hp0.
  - intros Hb. rewrite (dex_section_entry p0 Hp0).
    assert (forallb (fun entry => negb (nullish entry.2))
                    (props_of (prop p0 "breakdown24h")) = true) as ->.
    { destruct (prop p0 "breakdown24h") as [| | | | | |chains]; try done.
      simpl in Hb |- *. apply forallb_forall. intros entry Hin.
      rewrite forallb_forall in Hb. specialize (Hb entry Hin).
      by destruct entry.2. }
    simpl bind. rewrite (summary_section_entry p0 Hp0).
    by rewrite <- app_assoc.
  - intros _. destruct (first_entry_none Hp0 (declared_time doc) acc) as [-> _].
    simpl bind.
    destruct (first_entry_none Hp0 (declared_time doc) acc) as [_ ->].
    by rewrite app_nil_r.
Qed.

End Accepted.

Lemma dex_accepts doc :
  truthy doc = true -> truthy (prop doc "data") = true ->
  formatDexVolumeData coerceTime doc
  = (timestamp <- collection_timestamp doc ;;
     formattedData <- historical_section coerceTime doc [] ;;
     formattedData <- dex_section doc timestamp formattedData ;;
     summary_section doc timestamp formattedData).
Proof.
  intros Hdoc Hdata. unfold formatDexVolumeData.
  rewrite (get_truthy doc) by done. unfold orM, notM, falsy. simpl.
  rewrite Hdoc, Hdata. simpl.
  destruct (collection_timestamp doc) as [ts|]; simpl; [|done].
  destruct (historical_section coerceTime doc []) as [h|]; simpl; [|done].
  destruct (dex_section doc ts h) as [d|]; simpl; [|done].
  by destruct (summary_section doc ts d).
Qed.

Lemma accepted doc :
  lacks_container DexVolume doc = false ->
  truthy doc = true /\ truthy (prop doc "data") = true.
Proof.
  unfold lacks_container. rewrite optget_prop. simpl expects_list.
  rewrite orb_false_r. intros [H1 H2]%orb_false_elim.
  by rewrite !negb_false_iff in H1, H2.
Qed.

Lemma first_entry_rejected doc :
  lacks_container DexVolume doc = true -> first_entry doc = None.
Proof.
  unfold lacks_container. rewrite optget_prop. simpl expects_list.
  rewrite orb_false_r. intros H.
  assert (Hd : truthy (prop doc "data") = false).
  { apply orb_prop in H as [H|H]; apply negb_true_iff in H; [|done].
    by rewrite prop_falsy. }
  unfold first_entry, first_or_falsy. rewrite read2.
  by rewrite (prop_falsy _ "protocols" Hd).
Qed.

(** Whenever the rule returns, it returns what the chart section made,
    then the [dex_specific] records, then the summary. *)
Lemma dex_returns doc out :
  formatDexVolumeData coerceTime doc = Normal out ->
  exists records,
    Forall (fun record => exists iso volume, record = historical_total iso volume)
           records
    /\ out = records ++ dex_specific_of doc ++ summary_of doc
    /\ (lacks_container DexVolume doc = false ->
        historical_section coerceTime doc [] = Normal records).
Proof.
  intros Hout. destruct (lacks_container DexVolume doc) eqn:Hl.
  - rewrite dex_rejects in Hout by done. injection Hout as <-.
    exists []. unfold dex_specific_of, summary_of.
    by rewrite first_entry_rejected.
  - destruct (accepted doc Hl) as [Hdoc Hdata].
    rewrite dex_accepts in Hout by done.
    apply bind_normal in Hout as (ts & Hts & Hout).
    apply path_read in Hts. fold (declared_time doc) in Hts. subst ts.
    apply bind_normal in Hout as (records & Hrecords & Hout).
    exists records.
    split; [exact (historical_section_records doc Hdoc Hdata records Hrecords)|].
    split; [|done].
    by apply (late_sections_result doc Hdoc Hdata).
Qed.

Lemma first_entry_head doc l :
  read doc ["data"; "protocols"] = VArr l -> forallb is_object l = true ->
  first_entry doc = head l.
Proof.
  unfold first_entry, first_or_falsy. intros -> Hl. simpl truthy. cbv iota.
  destruct l as [|p0 rest]; [done|]. apply andb_prop in Hl as [Hp0 _].
  change (prop (VArr (p0 :: rest)) "0") with p0. by rewrite object_truthy.
Qed.

(** On a well-formed document the rule returns the three sections, in the
    order of the three blocks. *)
Lemma dex_well_formed doc :
  well_formed_dex doc = true ->
  formatDexVolumeData coerceTime doc
  = Normal (historical_of doc ++ dex_specific_of doc ++ summary_of doc).
Proof.
  unfold well_formed_dex.
  intros [[[Ht Hd]%andb_prop Hc]%andb_prop Hp]%andb_prop.
  rewrite read1 in Hd. rewrite read2 in Hc.
  assert (Hdoc : truthy doc = true).
  { apply object_truthy. by apply andb_prop in Ht as []. }
  assert (Hdata : truthy (prop doc "data") = true) by by apply object_truthy.
  rewrite dex_accepts, declared_time_read by done. simpl bind.
  rewrite historical_section_points by done. simpl bind.
  apply (late_sections_total doc Hdoc Hdata).
  destruct (read doc ["data"; "protocols"]) as [| | | | |l|] eqn:Hl; try done.
  - unfold first_entry, first_or_falsy. by rewrite Hl.
  - simpl in Hp.
    assert (Ho : forallb is_object l = true).
    { apply forallb_forall. intros p Hin. rewrite forallb_forall in Hp.
      specialize (Hp p Hin). by apply andb_prop in Hp as []. }
    rewrite (first_entry_head doc l Hl Ho).
    destruct l as [|p0 rest]; [done|]. simpl.
    by apply andb_prop in Hp as [[_ Hb]%andb_prop _].
Qed.

End DexRule.

(** ** The rules: what the specification claims of them *)

Import Samples.

Section Rules.

Variable coerceTime : value -> completion (option Z).

Lemma filter_all {A} (f : A -> bool) l :
  Forall (fun x => f x = true) l -> List.filter f l = l.
Proof. induction 1 as [|x l Hx _ IH]; simpl; [done|]. by rewrite Hx, IH. Qed.

Lemma filter_none {A} (f : A -> bool) l :
  Forall (fun x => f x = false) l -> List.filter f l = [].
Proof. induction 1 as [|x l Hx _ IH]; simpl; [done|]. by rewrite Hx. Qed.

Lemma Forall_point_records (P : value -> Prop) es :
  (forall iso volume, P (historical_total iso volume)) ->
  Forall P (flat_map point_record es).
Proof.
  intros HP. induction es as [|e es IH]; simpl; [done|].
  apply Forall_app. split; [|done].
  destruct e as [| | | | |[|[| |?|n| | |] [|volume [|? ?]]]|]; simpl; auto.
  destruct (whole n); auto.
Qed.

Lemma Forall_dex_records (P : value -> Prop) ts p0 ps :
  (forall t, P (dex_record ts p0 t)) -> Forall P (map (dex_record ts p0) ps).
Proof. intros HP. apply Forall_forall. intros x [t [-> _]]%list_elem_of_fmap. apply HP. Qed.

(** C1 (amended): a rule whose document is absent, or has no [data] field,
    or (for the four list rules) has no list at the container path, returns
    the empty sequence and throws nothing. *)
Theorem rule_returns_empty_without_container r doc :
  lacks_container r doc = true -> apply_rule coerceTime r doc = Normal [].
Proof.
  destruct r; simpl apply_rule.
  - apply tvl_rejects.
  - apply dex_rejects.
  - apply yield_rejects.
  - apply stablecoin_rejects.
  - apply fee_rejects.
Qed.

End Rules.

Lemma rule_returns_empty_without_container_witness :
  lacks_container YieldPool no_data_document = true
  /\ apply_rule not_a_number YieldPool no_data_document = Normal [].
Proof.
  split; [reflexivity|].
  apply (rule_returns_empty_without_container not_a_number YieldPool
           no_data_document).
  reflexivity.
Defined.

(** C1, as stated, fails: a document that is malformed because it declares
    no collection time makes the protocol TVL rule throw. *)
Lemma malformed_document_throws :
  well_formed ProtocolTvl no_metadata_document = false
  /\ formatProtocolTvlData no_metadata_document = Throw TypeError.
Proof. split; reflexivity. Qed.

Section RuleOutputs.

Variable coerceTime : value -> completion (option Z).

(** What a list rule returns on a well-formed document. *)
Lemma list_rule_well_formed r doc :
  expects_list r = true -> well_formed r doc = true ->
  apply_rule coerceTime r doc
  = Normal (map (rule_record r (declared_time doc))
                (list_at (read doc (container_path r)))).
Proof.
  intros Hr Hw.
  assert (has_declared_time doc = true
          /\ is_list_of is_object (read doc (container_path r)) = true)
    as [Ht Ho].
  { destruct r; try done; by apply andb_prop in Hw. }
  destruct (read doc (container_path r)) as [| | | | |l|] eqn:Hl; try done.
  simpl in Ho. simpl list_at.
  destruct r; try done; simpl container_path in Hl; simpl.
  - rewrite read1 in Hl. by apply tvl_well_formed.
  - rewrite read2 in Hl. by apply yield_well_formed.
  - rewrite read2 in Hl. by apply stablecoin_well_formed.
  - rewrite read2 in Hl. by apply fee_well_formed.
Qed.

Lemma well_formed_declares r doc :
  well_formed r doc = true -> has_declared_time doc = true.
Proof.
  destruct r; simpl; unfold well_formed_dex; rewrite !andb_true_iff; tauto.
Qed.

Lemma record_timestamp ts spec src :
  prop (record_of ts spec src) "timestamp" = ts.
Proof. reflexivity. Qed.

Lemma rule_record_timestamp r ts src :
  expects_list r = true -> prop (rule_record r ts src) "timestamp" = ts.
Proof. by destruct r. Qed.

(** C2 (amended): on a well-formed document every rule returns, every
    record it returns carries a [timestamp] that is neither [undefined] nor
    [null], and on every record but the [historical_total] ones of the DEX
    volume rule that timestamp is the collection time the document declares. *)
Theorem timestamp_is_collection_time r doc :
  well_formed r doc = true ->
  exists out,
    apply_rule coerceTime r doc = Normal out
    /\ Forall (fun record =>
                 nullish (prop record "timestamp") = false
                 /\ (has_type "historical_total" record = false ->
                     prop record "timestamp" = declared_time doc)) out.
Proof.
  intros Hw.
  assert (Ht : nullish (declared_time doc) = false).
  { apply well_formed_declares in Hw. unfold has_declared_time in Hw.
    by apply andb_prop in Hw as [_ Ht%negb_true_iff]. }
  destruct (expects_list r) eqn:Hr.
  - eexists. split; [by apply list_rule_well_formed|].
    apply Forall_forall. intros record [src [-> _]]%list_elem_of_fmap.
    by rewrite rule_record_timestamp.
  - destruct r; try done. simpl in Hw. simpl apply_rule.
    eexists. split; [by apply dex_well_formed|].
    rewrite !Forall_app. split_and!.
    + apply Forall_point_records. intros iso volume. by split.
    + unfold dex_specific_of. destruct (first_entry doc) as [p0|]; [|done].
      apply Forall_dex_records. by intros [[chain dexName] volume].
    + unfold summary_of. destruct (first_entry doc) as [p0|]; [|done].
      by repeat constructor.
Qed.

End RuleOutputs.

Lemma timestamp_is_collection_time_witness :
  well_formed DexVolume breakdown_document = true
  /\ exists out,
       apply_rule not_a_number DexVolume breakdown_document = Normal out
       /\ Forall (fun record =>
                    nullish (prop record "timestamp") = false
                    /\ (has_type "historical_total" record = false ->
                        prop record "timestamp" = declared_time breakdown_document))
                 out.
Proof.
  split; [reflexivity|].
  apply (timestamp_is_collection_time not_a_number DexVolume breakdown_document).
  reflexivity.
Defined.

(** C2, as stated, fails: the one record the DEX volume rule makes of the
    chart [[1460419200, 1000000]] carries the date of its own point, not the
    collection time of the document. *)
Lemma historical_record_keeps_its_own_time :
  well_formed DexVolume chart_document = true
  /\ declared_time chart_document = VStr "2025-04-15T22:09:43.495076"
  /\ exists record,
       formatDexVolumeData not_a_number chart_document = Normal [record]
       /\ prop record "timestamp" = VStr "2016-04-12T00:00:00.000Z"
       /\ prop record "timestamp" <> declared_time chart_document.
Proof.
  split; [reflexivity|]. split; [reflexivity|].
  eexists. split; [reflexivity|]. split; [reflexivity|]. discriminate.
Qed.

Section DexClaims.

Variable coerceTime : value -> completion (option Z).

Lemma tag_mismatch tag tag' : tag <> tag' -> String.eqb tag' tag = false.
Proof. intros H. apply String.eqb_neq. congruence. Qed.

Lemma Forall_historical (P : value -> Prop) records :
  (forall iso volume, P (historical_total iso volume)) ->
  Forall (fun record => exists iso volume, record = historical_total iso volume)
         records ->
  Forall P records.
Proof.
  intros HP Hr. eapply Forall_impl; [exact Hr|].
  intros record (iso & volume & ->). apply HP.
Qed.

Lemma type_of_historical tag records :
  tag <> "historical_total" ->
  Forall (fun record => exists iso volume, record = historical_total iso volume)
         records ->
  List.filter (has_type tag) records = [].
Proof.
  intros Htag Hr. apply filter_none. revert Hr. apply Forall_historical.
  intros iso volume.
  change (String.eqb "historical_total" tag = false). by apply tag_mismatch.
Qed.

Lemma type_of_dex_records tag doc :
  tag <> "dex_specific" -> List.filter (has_type tag) (dex_specific_of doc) = [].
Proof.
  intros Htag. apply filter_none. unfold dex_specific_of.
  destruct (first_entry doc) as [p0|]; [|done].
  apply Forall_dex_records. intros [[chain dexName] volume].
  change (String.eqb "dex_specific" tag = false). by apply tag_mismatch.
Qed.

Lemma type_of_summary tag doc :
  tag <> "volume_summary" -> List.filter (has_type tag) (summary_of doc) = [].
Proof.
  intros Htag. apply filter_none. unfold summary_of.
  destruct (first_entry doc) as [p0|]; [|done].
  repeat constructor.
  change (String.eqb "volume_summary" tag = false). by apply tag_mismatch.
Qed.

Lemma well_formed_returns doc :
  well_formed_dex doc = true ->
  exists out, formatDexVolumeData coerceTime doc = Normal out.
Proof. intros Hw. eexists. by apply dex_well_formed. Qed.

(** C3 (amended): take a document whose protocol list starts with the
    entry [p0].  If the document is well formed, the DEX volume rule returns,
    and its [dex_specific] records are, in order, one per (chain, DEX) pair of
    the [breakdown24h] of [p0], each with the pair's volume and the three
    change figures of [p0]; no other entry of the list is read.  The same
    holds of any output the rule returns on such a document, well formed or
    not. *)
Theorem dex_specific_per_pair doc p0 rest :
  read doc ["data"; "protocols"] = VArr (p0 :: rest) ->
  truthy p0 = true ->
  let expected :=
    map (fun '(chain, dexName, volume) =>
           VObj [("timestamp", declared_time doc);
                 ("type", VStr "dex_specific");
                 ("dex_name", VStr dexName);
                 ("chain", VStr chain);
                 ("volume_24h", volume);
                 ("volume_24h_change", prop p0 "change_1d");
                 ("volume_7d_change", prop p0 "change_7dover7d");
                 ("volume_30d_change", prop p0 "change_30dover30d")])
        (pairs_of (prop p0 "breakdown24h")) in
  (well_formed_dex doc = true ->
   exists out,
     formatDexVolumeData coerceTime doc = Normal out
     /\ List.filter (has_type "dex_specific") out = expected)
  /\ (forall out,
        formatDexVolumeData coerceTime doc = Normal out ->
        List.filter (has_type "dex_specific") out = expected).
Proof.
  intros Hp Ht expected.
  assert (Hany : forall out,
             formatDexVolumeData coerceTime doc = Normal out ->
             List.filter (has_type "dex_specific") out = expected).
  { intros out (records & Hr & -> & _)%dex_returns.
    rewrite !List.filter_app, type_of_historical, type_of_summary by done.
    rewrite app_nil_r. simpl. unfold dex_specific_of, expected.
    assert (first_entry doc = Some p0) as ->.
    { unfold first_entry, first_or_falsy. rewrite Hp.
      change ((if truthy p0 then Some p0 else None) = Some p0). by rewrite Ht. }
    rewrite filter_all.
    - apply map_ext. by intros [[chain dexName] volume].
    - apply Forall_dex_records. by intros [[chain dexName] volume]. }
  split; [|exact Hany].
  intros Hw. destruct (well_formed_returns doc Hw) as [out Hout].
  exists out. split; [exact Hout|]. by apply Hany.
Qed.


(** C7 (amended): on a well-formed document the DEX volume rule returns,
    and its output is a run of [historical_total] and [dex_specific] records
    followed, when the document has a first protocol entry, by one
    [volume_summary] record made of the totals and change figures of that
    entry, and by nothing when it has none.  The same holds of any output the
    rule returns, on a document well formed or not; and the first entry is
    the head of the protocol list wherever that is a list of objects. *)
Theorem volume_summary_last doc :
  let summary_last (out : list value) :=
    exists pre,
      Forall (fun record => has_type "historical_total" record = true
                            \/ has_type "dex_specific" record = true) pre
      /\ List.filter (has_type "volume_summary") pre = []
      /\ match first_entry doc with
         | Some p0 =>
             out = pre ++
               [VObj [("timestamp", declared_time doc);
                      ("type", VStr "volume_summary");
                      ("total_24h", prop p0 "total24h");
                      ("total_48h_to_24h", prop p0 "total48hto24h");
                      ("total_7d", prop p0 "total7d");
                      ("total_14d_to_7d", prop p0 "total14dto7d");
                      ("total_30d", prop p0 "total30d");
                      ("total_60d_to_30d", prop p0 "total60dto30d");
                      ("total_1y", prop p0 "total1y");
                      ("total_alltime", prop p0 "totalAllTime");
                      ("average_1y", prop p0 "average1y");
                      ("volume_24h_change", prop p0 "change_1d");
                      ("volume_7d_change", prop p0 "change_7d");
                      ("volume_1m_change", prop p0 "change_1m");
                      ("volume_7d_over_7d_change", prop p0 "change_7dover7d");
                      ("volume_30d_over_30d_change",
                       prop p0 "change_30dover30d")]]
         | None => out = pre
         end in
  (well_formed_dex doc = true ->
   exists out, formatDexVolumeData coerceTime doc = Normal out /\ summary_last out)
  /\ (forall l,
        read doc ["data"; "protocols"] = VArr l -> forallb is_object l = true ->
        first_entry doc = head l)
  /\ (forall out,
        formatDexVolumeData coerceTime doc = Normal out -> summary_last out).
Proof.
  intros summary_last.
  assert (Hany : forall out,
             formatDexVolumeData coerceTime doc = Normal out -> summary_last out).
  { intros out (records & Hr & -> & _)%dex_returns.
    exists (records ++ dex_specific_of doc). split_and!.
    - apply Forall_app. split.
      + revert Hr. apply Forall_historical. intros iso volume. by left.
      + unfold dex_specific_of. destruct (first_entry doc) as [p0|]; [|done].
        apply Forall_dex_records. intros [[chain dexName] volume]. by right.
    - by rewrite List.filter_app, type_of_historical, type_of_dex_records.
    - unfold summary_of. destruct (first_entry doc) as [p0|].
      + by rewrite app_assoc.
      + by rewrite !app_nil_r. }
  split; [|split; [apply first_entry_head|exact Hany]].
  intros Hw. destruct (well_formed_returns doc Hw) as [out Hout].
  exists out. split; [exact Hout|]. by apply Hany.
Qed.


End DexClaims.

Lemma dex_specific_per_pair_witness :
  (read breakdown_document ["data"; "protocols"]
   = VArr [breakdown_entry; other_entry]
   /\ truthy breakdown_entry = true
   /\ well_formed_dex breakdown_document = true)
  /\ exists out,
       formatDexVolumeData not_a_number breakdown_document = Normal out
       /\ List.filter (has_type "dex_specific") out
          = [dex_specific collected "ethereum" "uniswap" (VInt 500)
               (VInt 3) (VInt (-2)) (VInt 11);
             dex_specific collected "ethereum" "curve" (VInt 300)
               (VInt 3) (VInt (-2)) (VInt 11)].
Proof.
  split; [by repeat split|].
  exact (proj1 (dex_specific_per_pair not_a_number breakdown_document
                  breakdown_entry [other_entry] eq_refl eq_refl) eq_refl).
Defined.

(** C3, as stated, fails: a document whose first protocol entry has the
    breakdown but which declares no collection time makes the rule throw, so
    that no [dex_specific] record is emitted at all. *)
Lemma breakdown_without_metadata_throws :
  read breakdown_only_document ["data"; "protocols"] = VArr [breakdown_entry]
  /\ formatDexVolumeData not_a_number breakdown_only_document = Throw TypeError.
Proof. split; reflexivity. Qed.



Lemma volume_summary_last_witness :
  well_formed_dex breakdown_document = true
  /\ first_entry breakdown_document = Some breakdown_entry
  /\ exists out pre,
       formatDexVolumeData not_a_number breakdown_document = Normal out
       /\ Forall (fun record => has_type "historical_total" record = true
                                \/ has_type "dex_specific" record = true) pre
       /\ List.filter (has_type "volume_summary") pre = []
       /\ out = pre ++ [volume_summary collected breakdown_entry].
Proof.
  destruct (volume_summary_last not_a_number breakdown_document)
    as (Hreturns & Hfirst & _).
  split; [reflexivity|].
  split; [exact (Hfirst [breakdown_entry; other_entry] eq_refl eq_refl)|].
  destruct (Hreturns eq_refl) as (out & Hout & pre & Htypes & Hnone & Hout').
  exists out, pre. split; [exact Hout|]. split; [exact Htypes|].
  split; [exact Hnone|]. exact Hout'.
Defined.

(** C7, as stated, fails: a document with a first protocol entry that
    declares no collection time makes the rule throw, so that no
    [volume_summary] record is emitted. *)
Lemma summary_without_metadata_throws :
  first_entry summary_only_document = Some (VObj [("total24h", VInt 800)])
  /\ formatDexVolumeData not_a_number summary_only_document = Throw TypeError.
Proof. split; reflexivity. Qed.

Section ListClaims.

Variable coerceTime : value -> completion (option Z).

(** C5: on a well-formed document the protocol TVL rule returns one record
    per element of the protocol list, and on a document without a [data]
    field it returns none.  On any document that holds a list, the rule
    returns as many records as the list has elements whenever it returns. *)
Theorem tvl_record_count doc :
  (forall l,
      well_formed ProtocolTvl doc = true -> read doc ["data"] = VArr l ->
      exists out,
        formatProtocolTvlData doc = Normal out /\ length out = length l)
  /\ (read doc ["data"] = VUndef -> formatProtocolTvlData doc = Normal [])
  /\ (forall l out,
        read doc ["data"] = VArr l -> formatProtocolTvlData doc = Normal out ->
        length out = length l).
Proof.
  split_and!.
  - intros l Hw Hl. eexists. split.
    + by apply (list_rule_well_formed coerceTime ProtocolTvl).
    + simpl container_path. by rewrite Hl, length_map.
  - intros Hd. apply tvl_rejects. unfold lacks_container.
    simpl in Hd. rewrite Hd. by destruct (truthy doc).
  - intros l out Hl. rewrite read1 in Hl. unfold formatProtocolTvlData.
    rewrite (tvl_accepts doc l) by (done || by eapply array_prop_truthy).
    apply mapM_length.
Qed.

Lemma lookup_prediction pool k :
  k ∈ prediction_keys ->
  prop (predictions_record pool) k = prop (prop pool "predictions") k.
Proof.
  unfold prediction_keys. rewrite !elem_of_cons, elem_of_nil.
  intros [->|[->|[->|[]]]]; simpl; apply optget_prop.
Qed.

(** C6: on a well-formed document the yield pool rule returns one record
    per pool, in order.  The [predictions] of a record holds each of the
    three sub-fields as the pool has it, [undefined] when the pool has no
    such sub-field; for a pool with no [predictions] at all the three are
    [undefined], and the record is there all the same. *)
Theorem yield_record_per_pool doc l :
  well_formed YieldPool doc = true ->
  read doc ["data"; "data"] = VArr l ->
  exists out,
    formatYieldPoolData doc = Normal out
    /\ length out = length l
    /\ forall i pool, l !! i = Some pool ->
         exists record,
           out !! i = Some record
           /\ (forall k, k ∈ prediction_keys ->
                 prop (prop record "predictions") k
                 = prop (prop pool "predictions") k)
           /\ (prop pool "predictions" = VUndef ->
                 prop record "predictions"
                 = VObj [("predictedClass", VUndef);
                         ("predictedProbability", VUndef);
                         ("binnedConfidence", VUndef)]).
Proof.
  intros Hw Hl. eexists. split.
  { by apply (list_rule_well_formed coerceTime YieldPool). }
  simpl container_path. rewrite Hl. simpl list_at. split.
  { by rewrite length_map. }
  intros i pool Hi. exists (yield_record (declared_time doc) pool). split.
  { by rewrite list_lookup_fmap, Hi. }
  change (prop (yield_record (declared_time doc) pool) "predictions")
    with (predictions_record pool).
  split.
  - apply lookup_prediction.
  - intros Hp. unfold predictions_record. by rewrite Hp.
Qed.

End ListClaims.

Lemma tvl_record_count_witness :
  (well_formed ProtocolTvl tvl_document = true
   /\ exists out,
        formatProtocolTvlData tvl_document = Normal out /\ length out = 2%nat)
  /\ (read no_data_document ["data"] = VUndef
      /\ formatProtocolTvlData no_data_document = Normal []).
Proof.
  split.
  - split; [reflexivity|].
    apply (proj1 (tvl_record_count not_a_number tvl_document)
             [VObj [("name", VStr "Lido"); ("tvl", VInt 100)];
              VObj [("name", VStr "Aave"); ("tvl", VInt 50)]]);
      reflexivity.
  - split; [reflexivity|].
    apply (proj1 (proj2 (tvl_record_count not_a_number no_data_document))).
    reflexivity.
Defined.

Lemma yield_record_per_pool_witness :
  well_formed YieldPool pools_document = true
  /\ exists out,
       formatYieldPoolData pools_document = Normal out
       /\ length out = 3%nat
       /\ exists record,
            out !! 0%nat = Some record
            /\ prop record "predictions"
               = VObj [("predictedClass", VUndef);
                       ("predictedProbability", VUndef);
                       ("binnedConfidence", VUndef)].
Proof.
  split; [reflexivity|].
  destruct (yield_record_per_pool not_a_number pools_document
              (list_at (read pools_document ["data"; "data"]))
              eq_refl eq_refl) as (out & Hout & Hlen & Hrec).
  exists out. split; [exact Hout|]. split; [exact Hlen|].
  destruct (Hrec 0%nat (VObj [("chain", VStr "Ethereum"); ("apy", VInt 4)]) eq_refl)
    as (record & Hrecord & _ & Hnone).
  exists record. split; [exact Hrecord|]. apply Hnone. reflexivity.
Defined.

(** In the file the driver writes, the three sub-fields of such a pool are
    absent: a property that holds [undefined] is not serialised. *)
Example predictions_in_file :
  serialized (predictions_record (VObj [("chain", VStr "Ethereum")])) = VObj [].
Proof. reflexivity. Qed.

(** ** The batch driver *)

Section Driver.

Variable coerceTime : value -> completion (option Z).

Lemma readJsonFile_files path w : files (readJsonFile path w).2 = files w.
Proof. unfold readJsonFile. by destruct (files w !! path) as [[]|]. Qed.

Lemma readJsonFile_console path w :
  exists lines, console (readJsonFile path w).2 = console w ++ lines.
Proof.
  unfold readJsonFile. destruct (files w !! path) as [[]|]; simpl;
    try by eexists. exists []. by rewrite app_nil_r.
Qed.

(** What is read depends on the one file only. *)
Lemma readJsonFile_same path w1 w2 :
  files w1 !! path = files w2 !! path ->
  (readJsonFile path w1).1 = (readJsonFile path w2).1.
Proof. unfold readJsonFile. intros ->. by destruct (files w2 !! path) as [[]|]. Qed.

(** One turn of the loop, outcome by outcome. *)
Lemma process_entry_cases e w :
  let data := (readJsonFile (input e) w).1 in
  let w' := (process_entry e w).1 in
  let result := (process_entry e w).2 in
  (exists lines, console w' = console w ++ lines)
  /\ match truthy data, processor e data with
     | true, Normal (record :: records) =>
         files w' = <[output e := Json (serialized (VArr (record :: records)))]>
                      (files w)
         /\ result = Normal tt
     | true, Throw err => files w' = files w /\ result = Throw err
     | _, _ =>
         files w' = files w /\ result = Normal tt
         /\ nothing_written e data ∈ console w'
     end.
Proof.
  unfold process_entry, nothing_written.
  pose proof (readJsonFile_same (input e)
                (log ("Processing " +:+ input e +:+ "...") w) w eq_refl) as Hd.
  pose proof (readJsonFile_files (input e)
                (log ("Processing " +:+ input e +:+ "...") w)) as Hf.
  destruct (readJsonFile_console (input e)
              (log ("Processing " +:+ input e +:+ "...") w)) as [lines Hc].
  destruct (readJsonFile (input e) (log _ w)) as [data w1].
  simpl in Hd, Hf, Hc. rewrite <- Hd. clear Hd. simpl.
  destruct (truthy data) eqn:Ht.
  - destruct (processor e data) as [[|record records]|err]; simpl.
    + split; [eexists; by rewrite Hc, <- !app_assoc|].
      split_and!; [done..|]. rewrite elem_of_app. right. by left.
    + split; [eexists; by rewrite Hc, <- !app_assoc|]. by rewrite Hf.
    + split; [eexists; by rewrite Hc, <- !app_assoc|]. done.
  - simpl. split; [eexists; by rewrite Hc, <- !app_assoc|].
    split_and!; [done..|]. rewrite elem_of_app. right. by left.
Qed.

Lemma process_entry_console e w :
  exists lines, console (process_entry e w).1 = console w ++ lines.
Proof. apply process_entry_cases. Qed.

(** A turn leaves every file but its own output as it was. *)
Lemma process_entry_other e w path :
  path <> output e ->
  files (process_entry e w).1 !! path = files w !! path.
Proof.
  intros Hp. destruct (process_entry_cases e w) as [_ H].
  destruct (truthy _); [destruct (processor e _) as [[|record records]|err]|];
    try (by destruct H as [-> _]).
  destruct H as [-> _]. by rewrite lookup_insert_ne.
Qed.

Lemma process_entries_other es w path :
  path ∉ map output es ->
  files (process_entries es w).1 !! path = files w !! path.
Proof.
  revert w. induction es as [|e es IH]; simpl; intros w Hp; [done|].
  apply not_elem_of_cons in Hp as [Hp Hes].
  pose proof (process_entry_other e w path Hp) as He.
  destruct (process_entry e w) as [w' [[]|err]]; simpl in *.
  - by rewrite IH.
  - done.
Qed.

Lemma process_entries_console es w :
  exists lines, console (process_entries es w).1 = console w ++ lines.
Proof.
  revert w. induction es as [|e es IH]; simpl; intros w.
  - exists []. by rewrite app_nil_r.
  - destruct (process_entry_console e w) as [l1 H1].
    destruct (process_entry e w) as [w' [[]|err]]; simpl in *.
    + destruct (IH w') as [l2 H2]. exists (l1 ++ l2).
      by rewrite H2, H1, app_assoc.
    + by exists l1.
Qed.

(** The run over a list of entries, seen from one of them: the entries
    before it write neither its input nor its output, and those after it do
    not write its output. *)
Lemma process_entries_entry pre e post w :
  output e ∉ map output pre -> input e ∉ map output pre ->
  output e ∉ map output post ->
  let data := (readJsonFile (input e) w).1 in
  let w' := (process_entries (pre ++ e :: post) w).1 in
  let result := (process_entries (pre ++ e :: post) w).2 in
  (truthy data = false \/ processor e data = Normal [] ->
     files w' !! output e = files w !! output e
     /\ (result = Normal tt -> nothing_written e data ∈ console w'))
  /\ (files w' !! output e <> files w !! output e ->
       exists records,
         truthy data = true /\ processor e data = Normal records
         /\ records <> []
         /\ files w' !! output e = Some (Json (serialized (VArr records)))).
Proof.
  intros Hout Hin Hpost. revert w.
  induction pre as [|e0 pre IH]; intros w; simpl.
  - pose proof (process_entry_cases e w) as [_ H]. simpl in H.
    pose proof (process_entries_other post (process_entry e w).1 (output e) Hpost)
      as Hrest.
    destruct (process_entries_console post (process_entry e w).1) as [lines Hlines].
    destruct (truthy (readJsonFile (input e) w).1) eqn:Ht;
      [destruct (processor e (readJsonFile (input e) w).1)
         as [[|record records]|err] eqn:Hp|].
    + destruct H as (Hf & Hr & Hl).
      destruct (process_entry e w) as [w1 r1]. simpl in *. subst r1.
      rewrite Hrest, Hf. split; [|done]. intros _. split; [done|]. intros _.
      rewrite Hlines, elem_of_app. by left.
    + destruct H as (Hf & Hr).
      destruct (process_entry e w) as [w1 r1]. simpl in *. subst r1.
      rewrite Hrest, Hf, lookup_insert_eq. split.
      * by intros [|].
      * intros _. by eexists.
    + destruct H as (Hf & Hr).
      destruct (process_entry e w) as [w1 r1]. simpl in *. subst r1. simpl.
      rewrite Hf. split; [|done]. by intros [|].
    + destruct H as (Hf & Hr & Hl).
      destruct (process_entry e w) as [w1 r1]. simpl in *. subst r1.
      rewrite Hrest, Hf. split; [|done]. intros _. split; [done|]. intros _.
      rewrite Hlines, elem_of_app. by left.
  - simpl in Hout, Hin.
    apply not_elem_of_cons in Hout as [Hout0 Hout].
    apply not_elem_of_cons in Hin as [Hin0 Hin].
    pose proof (process_entry_other e0 w (output e) Hout0) as Ho.
    pose proof (process_entry_other e0 w (input e) Hin0) as Hi.
    apply readJsonFile_same in Hi.
    destruct (process_entry e0 w) as [w0 [[]|err]]; simpl in *.
    + rewrite <- Hi, <- Ho. by apply IH.
    + rewrite Ho. split; [|done]. intros _. by split.
Qed.

(** An entry of a table whose output paths differ from one another and from
    every input path. *)
Lemma split_entries es e :
  e ∈ es ->
  NoDup (map output es) ->
  Forall (fun e1 => Forall (fun e2 => input e1 <> output e2) es) es ->
  exists pre post,
    es = pre ++ e :: post
    /\ (output e ∉ map output pre) /\ (input e ∉ map output pre)
    /\ (output e ∉ map output post).
Proof.
  intros He Hnd Hio. apply list_elem_of_split in He as (pre & post & ->).
  exists pre, post. split; [done|].
  rewrite map_app in Hnd. simpl in Hnd.
  apply NoDup_app in Hnd as (_ & Hpre & Hpost).
  apply NoDup_cons in Hpost as [Hpost _].
  rewrite Forall_forall in Hio.
  split_and!; [|intros (e2 & Heq & He2)%list_elem_of_fmap|done].
  - intros Hin. apply (Hpre _ Hin). by left.
  - assert (Hmem : e ∈ pre ++ e :: post).
    { apply elem_of_app. right. by left. }
    specialize (Hio e Hmem). rewrite Forall_forall in Hio.
    apply (Hio e2); [|done]. apply elem_of_app. by left.
Qed.

(** The entries around one of a table whose output paths differ from one
    another and from every input path. *)
Lemma entries_apart pre e post :
  NoDup (map output (pre ++ e :: post)) ->
  Forall (fun e1 => Forall (fun e2 => input e1 <> output e2) (pre ++ e :: post))
         (pre ++ e :: post) ->
  (output e ∉ map output pre) /\ (input e ∉ map output pre)
  /\ (output e ∉ map output post).
Proof.
  intros Hnd Hio. rewrite map_app in Hnd. simpl in Hnd.
  apply NoDup_app in Hnd as (_ & Hpre & Hpost).
  apply NoDup_cons in Hpost as [Hpost _].
  rewrite Forall_forall in Hio.
  split_and!; [|intros (e2 & Heq & He2)%list_elem_of_fmap|done].
  - intros Hin. apply (Hpre _ Hin). by left.
  - assert (Hmem : e ∈ pre ++ e :: post).
    { apply elem_of_app. right. by left. }
    specialize (Hio e Hmem). rewrite Forall_forall in Hio.
    apply (Hio e2); [|done]. apply elem_of_app. by left.
Qed.

(** A run cut short stops where the rule threw: the entries that follow
    are not looked at. *)
Lemma process_entries_cut pre rest w err :
  (process_entries pre w).2 = Throw err ->
  process_entries (pre ++ rest) w = process_entries pre w.
Proof.
  revert w. induction pre as [|e0 pre IH]; intros w; simpl; [done|].
  destruct (process_entry e0 w) as [w0 [[]|err0]]; simpl; [apply IH|done].
Qed.

(** A run that gets to an entry whose input cannot be read, or whose rule
    returns no record, prints the line for it, and the line stays, whatever
    the entries after it do. *)
Lemma process_entries_reached pre e post w :
  input e ∉ map output pre ->
  (process_entries pre w).2 = Normal tt ->
  let data := (readJsonFile (input e) w).1 in
  truthy data = false \/ processor e data = Normal [] ->
  nothing_written e data ∈ console (process_entries (pre ++ e :: post) w).1.
Proof.
  intros Hin. revert w. induction pre as [|e0 pre IH]; intros w Hres; simpl.
  - intros Hd. pose proof (process_entry_cases e w) as [_ H]. simpl in H.
    assert (Hl : (process_entry e w).2 = Normal tt
                 /\ nothing_written e (readJsonFile (input e) w).1
                    ∈ console (process_entry e w).1).
    { destruct (truthy (readJsonFile (input e) w).1);
        [destruct Hd as [Hd|Hd]; [done|]; rewrite Hd in H|];
        by destruct H as (_ & Hr & Hl). }
    destruct Hl as [Hr Hl].
    destruct (process_entries_console post (process_entry e w).1)
      as [lines Hlines].
    destruct (process_entry e w) as [w1 r1]. simpl in *. subst r1.
    rewrite Hlines, elem_of_app. by left.
  - simpl in Hin. apply not_elem_of_cons in Hin as [Hin0 Hin].
    pose proof (process_entry_other e0 w (input e) Hin0) as Hi.
    apply readJsonFile_same in Hi. simpl in Hres.
    destruct (process_entry e0 w) as [w0 [[]|err]]; simpl in *; [|done].
    rewrite <- Hi. by apply IH.
Qed.

(** C10 (amended): take a category [e] of the driver's table, with the
    categories [pre] before it and [post] after it.  If its input cannot be
    read, or its rule returns no record, nothing is written to its output
    file, which is after the run what it was before; and the run prints the
    line for it if it gets to it, that is if no rule of [pre] has thrown,
    whatever the rules of [post] do.  A rule of [pre] that throws ends the
    run there: [e] is neither processed nor reported.  And the output file
    of [e] differs after the run only if its rule returned a non-empty
    sequence, which is then what the file holds. *)
Theorem driver_writes_only_records pre e post w :
  dataFiles coerceTime = pre ++ e :: post ->
  let data := (readJsonFile (input e) w).1 in
  let w' := (processAllData coerceTime w).1 in
  (truthy data = false \/ processor e data = Normal [] ->
     files w' !! output e = files w !! output e
     /\ ((process_entries pre w).2 = Normal tt ->
         nothing_written e data ∈ console w'))
  /\ (forall err,
        (process_entries pre w).2 = Throw err ->
        processAllData coerceTime w = ((process_entries pre w).1, Throw err))
  /\ (files w' !! output e <> files w !! output e ->
       exists records,
         truthy data = true /\ processor e data = Normal records
         /\ records <> []
         /\ files w' !! output e = Some (Json (serialized (VArr records)))).
Proof.
  intros Hes. simpl.
  destruct (entries_apart pre e post) as (H1 & H2 & H3).
  { rewrite <- Hes. apply (bool_decide_unpack _). by vm_compute. }
  { rewrite <- Hes. apply (bool_decide_unpack _). by vm_compute. }
  pose proof (process_entries_entry pre e post w H1 H2 H3) as [Hnone Hsome].
  pose proof (process_entries_reached pre e post w H2) as Hline.
  pose proof (process_entries_cut pre (e :: post) w) as Hcut.
  unfold processAllData. rewrite Hes.
  destruct (process_entries (pre ++ e :: post) w) as [w' [[]|err]]; simpl in *.
  - split_and!.
    + intros Hd. destruct (Hnone Hd) as [Hf _]. split; [done|].
      intros Hres. rewrite elem_of_app. left. by apply Hline.
    + intros err Hres. specialize (Hcut err Hres).
      rewrite <- Hcut in Hres. done.
    + done.
  - split_and!.
    + intros Hd. destruct (Hnone Hd) as [Hf _]. split; [done|].
      intros Hres. by apply Hline.
    + intros err' Hres. specialize (Hcut err' Hres).
      rewrite <- Hcut in Hres |- *. simpl in Hres. by injection Hres as ->.
    + done.
Qed.

(** X25: a turn of the driver's loop depends on its input file only: on
    two worlds that hold the same input file it ends the same way and writes,
    if it writes at all, the same text to its output, whatever else the two
    worlds hold or have printed. *)
Theorem process_entry_reads_input e w1 w2 :
  files w1 !! input e = files w2 !! input e ->
  (process_entry e w1).2 = (process_entry e w2).2
  /\ ((files (process_entry e w1).1 = files w1
       /\ files (process_entry e w2).1 = files w2)
      \/ exists text,
           files (process_entry e w1).1 = <[output e := text]> (files w1)
           /\ files (process_entry e w2).1 = <[output e := text]> (files w2)).
Proof.
  intros Hin.
  pose proof (process_entry_cases e w1) as [_ H1].
  pose proof (process_entry_cases e w2) as [_ H2].
  simpl in H1, H2. rewrite (readJsonFile_same (input e) w1 w2 Hin) in H1.
  destruct (truthy (readJsonFile (input e) w2).1);
    [destruct (processor e (readJsonFile (input e) w2).1)
       as [[|record records]|err]|].
  - destruct H1 as (-> & -> & _), H2 as (-> & -> & _). split; [done|]. by left.
  - destruct H1 as (-> & ->), H2 as (-> & ->). split; [done|]. right. by eexists.
  - destruct H1 as (-> & ->), H2 as (-> & ->). split; [done|]. by left.
  - destruct H1 as (-> & -> & _), H2 as (-> & -> & _). split; [done|]. by left.
Qed.

End Driver.

Lemma driver_writes_only_records_witness :
  dataFiles not_a_number
  = take 1 (dataFiles not_a_number) ++ dex_entry
    :: drop 2 (dataFiles not_a_number)
  /\ (processAllData not_a_number late_throw_world).2 = Throw TypeError
  /\ files (processAllData not_a_number late_throw_world).1 !! output dex_entry
     = Some (Json (VArr [VStr "earlier"]))
  /\ (Stdout, "Warning: No data found in " +:+ input dex_entry)
     ∈ console (processAllData not_a_number late_throw_world).1.
Proof.
  split; [reflexivity|]. split; [reflexivity|].
  destruct (driver_writes_only_records not_a_number
              (take 1 (dataFiles not_a_number)) dex_entry
              (drop 2 (dataFiles not_a_number)) late_throw_world eq_refl)
    as [Hnone _].
  destruct Hnone as [Hfile Hline]; [right; reflexivity|].
  split; [rewrite Hfile; reflexivity|].
  apply Hline. reflexivity.
Defined.

Lemma process_entry_reads_input_witness :
  files stale_world !! input dex_entry = files late_throw_world !! input dex_entry
  /\ (process_entry dex_entry stale_world).2
     = (process_entry dex_entry late_throw_world).2
  /\ files (process_entry dex_entry late_throw_world).1 = files late_throw_world.
Proof.
  split; [reflexivity|].
  destruct (process_entry_reads_input dex_entry stale_world late_throw_world
              eq_refl) as [Hresult _].
  split; [exact Hresult|reflexivity].
Defined.

(** C10, as stated, fails: in a run that the DEX volume rule cuts short,
    the input of the yield pools cannot be read and yet no line is printed
    for it. *)
Lemma cut_short_run_logs_nothing :
  truthy (readJsonFile "data/yields/pools/pools_2025-04-15T22-09-44.415408.json"
            cut_short_world).1 = false
  /\ (processAllData not_a_number cut_short_world).2 = Throw TypeError
  /\ Forall (fun line =>
               line.2 <> "Error: Could not read data/yields/pools/pools_2025-04-15T22-09-44.415408.json"
               /\ line.2 <> "Warning: No data found in data/yields/pools/pools_2025-04-15T22-09-44.415408.json")
            (console (processAllData not_a_number cut_short_world).1).
Proof.
  split; [reflexivity|]. split; [reflexivity|].
  apply (bool_decide_unpack _). by vm_compute.
Qed.


(** ** The collector *)

Import Collector.

Section Summary.

Variable respond : string -> option value.

Lemma fetchCategory_value announce url filename w :
  (fetchCategory respond announce url filename w).1 = received respond url.
Proof.
  unfold fetchCategory, fetchData, received, payload.
  destruct (respond url) as [body|]; simpl; [|done].
  by destruct (truthy body).
Qed.

Lemma count_plain v :
  plain v = true ->
  or_else (optget v "length") (VInt 0) = VInt (list_length v).
Proof.
  destruct v as [| |b|n|s|l|props]; try done.
  - intros _. unfold or_else. simpl.
    destruct (Z.of_nat (length l) =? 0) eqn:E; simpl; [|done].
    apply Z.eqb_eq in E. by rewrite E.
  - simpl. unfold optget. simpl. by destruct (lookup_prop "length" props).
Qed.

Lemma count_received url :
  plain (payload respond url) = true ->
  or_else (optget (received respond url) "length") (VInt 0)
  = VInt (list_length (payload respond url)).
Proof.
  intros Hp. unfold received.
  destruct (truthy (payload respond url)) eqn:Ht; [by apply count_plain|].
  by destruct (payload respond url) as [| |[]|n|s|l|props].
Qed.

Lemma received_protocols url :
  optget (received respond url) "protocols"
  = prop (payload respond url) "protocols".
Proof.
  unfold received. destruct (truthy (payload respond url)) eqn:Ht.
  - apply optget_prop.
  - by destruct (payload respond url) as [| |[]|n|s|l|props].
Qed.

Lemma count_nested url :
  plain (prop (payload respond url) "protocols") = true ->
  or_else (optget (optget (received respond url) "protocols") "length") (VInt 0)
  = VInt (list_length (prop (payload respond url) "protocols")).
Proof. intros Hp. rewrite received_protocols. by apply count_plain. Qed.

Lemma count_length v props x :
  v = VObj props -> lookup_prop "length" props = Some x ->
  or_else (optget v "length") (VInt 0) = or_else x (VInt 0).
Proof. intros -> Hx. unfold optget. simpl. by rewrite Hx. Qed.

Lemma received_object url props :
  payload respond url = VObj props -> received respond url = VObj props.
Proof. intros H. unfold received. by rewrite H. Qed.

(** C9 (amended): the summary of [fetchAllData] has five counts, each made
    by [x?.length || 0] of the payload (protocols, pools, stablecoins) or of
    its [protocols] field (DEX volumes, fees).  Where that value is a list
    the count is its length; where the fetch failed, or the value is missing,
    [null], a boolean, a number or an object without a [length] of its own,
    the count is zero; and where it is an object with a [length] of its own,
    the count is that property if it is truthy and zero if not. *)
Theorem summary_counts w :
  let protocols := payload respond (BASE_URL +:+ "/protocols") in
  let dexVolumes := payload respond (BASE_URL +:+ "/overview/dexs") in
  let yieldPools := payload respond (YIELDS_URL +:+ "/pools") in
  let stablecoins := payload respond (STABLECOINS_URL +:+ "/stablecoins") in
  let fees := payload respond (BASE_URL +:+ "/overview/fees") in
  let counts (v c : value) :=
    (plain v = true -> c = VInt (list_length v))
    /\ (forall props x,
          v = VObj props -> lookup_prop "length" props = Some x ->
          c = or_else x (VInt 0)) in
  exists c1 c2 c3 c4 c5,
    (fetchAllData respond w).1
    = VObj [("protocolCount", c1); ("dexCount", c2); ("poolCount", c3);
            ("stablecoinCount", c4); ("feeProtocolCount", c5)]
    /\ counts protocols c1
    /\ counts (prop dexVolumes "protocols") c2
    /\ counts yieldPools c3
    /\ counts stablecoins c4
    /\ counts (prop fees "protocols") c5.
Proof.
  simpl. unfold fetchAllData, fetchProtocolTVL, fetchDEXVolumes,
    fetchYieldPools, fetchStablecoinData, fetchFeeData.
  repeat match goal with
  | |- context [fetchCategory respond ?a ?u ?f ?w0] =>
      let H := fresh "H" in
      pose proof (fetchCategory_value a u f w0) as H;
      destruct (fetchCategory respond a u f w0) as [? ?];
      simpl in H; subst
  end.
  do 5 eexists. split; [reflexivity|].
  split_and!; try (intros Hp; by apply count_received || by apply count_nested).
  - intros props x Hv Hx.
    by rewrite (count_length _ props x (received_object _ props Hv) Hx).
  - intros props x Hv Hx. rewrite received_protocols.
    by apply (count_length _ props).
  - intros props x Hv Hx.
    by rewrite (count_length _ props x (received_object _ props Hv) Hx).
  - intros props x Hv Hx.
    by rewrite (count_length _ props x (received_object _ props Hv) Hx).
  - intros props x Hv Hx. rewrite received_protocols.
    by apply (count_length _ props).
Qed.

End Summary.

Lemma summary_counts_witness :
  (fetchAllData sample_network (World ∅ [])).1
  = VObj [("protocolCount", VInt 3); ("dexCount", VInt 2); ("poolCount", VInt 0);
          ("stablecoinCount", VInt 0); ("feeProtocolCount", VInt 0)].
Proof.
  destruct (summary_counts sample_network (World ∅ []))
    as (c1 & c2 & c3 & c4 & c5 & Hs & [H1 _] & [H2 _] & [H3 _] & [H4 _]
        & [H5 _]).
  rewrite Hs, (H1 eq_refl), (H2 eq_refl), (H3 eq_refl), (H4 eq_refl), (H5 eq_refl).
  reflexivity.
Defined.

(** C9, as stated, fails: a pools payload that is no list, and has none
    under the name the count reads, is counted by the [length] it happens to
    have, not as zero. *)
Lemma length_field_is_counted :
  isArray (payload odd_network (YIELDS_URL +:+ "/pools")) = false
  /\ (fetchAllData odd_network (World ∅ [])).1
     = VObj [("protocolCount", VInt 0); ("dexCount", VInt 0);
             ("poolCount", VInt 7); ("stablecoinCount", VInt 0);
             ("feeProtocolCount", VInt 0)].
Proof. split; reflexivity. Qed.

(** * Further properties of the code *)

Import Further.

(** ** The list rules, on any list *)

Section ListRuleOutcomes.

Variable coerceTime : value -> completion (option Z).

Lemma mapM_cases {A B} (f : A -> completion B) (ok : A -> bool) (g : A -> B)
    err l :
  (forall x, f x = if ok x then Normal (g x) else Throw err) ->
  mapM f l = if forallb ok l then Normal (map g l) else Throw err.
Proof.
  intros Hf. induction l as [|x l IH]; simpl; [done|].
  rewrite Hf. destruct (ok x); simpl; [|done].
  rewrite IH. by destruct (forallb ok l).
Qed.

Lemma fields_absent src spec :
  nullish src = true -> spec <> [] -> fields src spec = Throw TypeError.
Proof.
  intros H Hs. destruct spec as [|[out k] spec]; [done|].
  unfold fields, get. simpl. by rewrite H.
Qed.

(** A value with a truthy property is truthy itself. *)
Lemma truthy_prop v k :
  truthy (prop v k) = true -> String.eqb k "length" = false -> truthy v = true.
Proof.
  intros Hp Hk. destruct (truthy v) eqn:E; [done|].
  by rewrite (prop_falsy v k E Hk) in Hp.
Qed.

Lemma nested_list_truthy doc k l :
  prop (prop doc "data") k = VArr l -> truthy doc = true.
Proof.
  intros Hl. apply (truthy_prop doc "data"); [|done].
  by eapply array_prop_truthy.
Qed.

(** What the body of a list rule makes of one element, once the collection
    time has been read. *)
Lemma list_rule_body r doc ts :
  expects_list r = true -> collection_timestamp doc = Normal ts ->
  forall l,
    read doc (container_path r) = VArr l ->
    apply_rule coerceTime r doc
    = if forallb present l then Normal (map (rule_record r ts) l)
      else Throw TypeError.
Proof.
  intros Hr Hts l Hl. destruct r; try done; simpl in Hl |- *.
  - rewrite optget_prop in Hl. unfold formatProtocolTvlData.
    rewrite (tvl_accepts doc l) by (done || by eapply array_prop_truthy).
    apply mapM_cases. intros x. rewrite Hts. simpl bind. unfold present.
    destruct (nullish x) eqn:Hx; simpl.
    + by rewrite fields_absent.
    + by rewrite fields_present.
  - rewrite !optget_prop in Hl. unfold formatYieldPoolData.
    rewrite (nested_accepts doc "data" l) by (done || by eapply nested_list_truthy).
    apply mapM_cases. intros x. rewrite Hts. simpl bind. unfold present.
    destruct (nullish x) eqn:Hx; simpl.
    + by rewrite fields_absent.
    + rewrite fields_present by done. simpl bind.
      by rewrite predictions_present.
  - rewrite !optget_prop in Hl. unfold formatStablecoinData.
    rewrite (nested_accepts doc "peggedAssets" l)
      by (done || by eapply nested_list_truthy).
    apply mapM_cases. intros x. rewrite Hts. simpl bind. unfold present.
    destruct (nullish x) eqn:Hx; simpl.
    + by rewrite fields_absent.
    + by rewrite fields_present.
  - rewrite !optget_prop in Hl. unfold formatProtocolFeeData.
    rewrite (fee_accepts doc l) by (done || by eapply nested_list_truthy).
    apply mapM_cases. intros x. rewrite Hts. simpl bind. unfold present.
    destruct (nullish x) eqn:Hx; simpl.
    + by rewrite fields_absent.
    + by rewrite fields_present.
Qed.

(** X1: a list rule whose document declares a collection time returns one
    record per element, in order, unless an element of the list is [null]:
    then it throws a TypeError and returns no record at all. *)
Theorem list_rule_outcome r doc ts l :
  expects_list r = true ->
  collection_timestamp doc = Normal ts ->
  read doc (container_path r) = VArr l ->
  apply_rule coerceTime r doc
  = if forallb present l then Normal (map (rule_record r ts) l)
    else Throw TypeError.
Proof. intros Hr Hts Hl. by apply list_rule_body. Qed.

(** X2: the collection time is read once per element, so a list rule gets
    by without it on an empty list and fails for want of it on any other. *)
Theorem list_rule_without_time r doc err l :
  expects_list r = true ->
  collection_timestamp doc = Throw err ->
  read doc (container_path r) = VArr l ->
  apply_rule coerceTime r doc
  = match l with
    | [] => Normal []
    | _ :: _ => Throw err
    end.
Proof.
  intros Hr Hts Hl. destruct r; try done; simpl in Hl |- *;
    rewrite ?optget_prop in Hl.
  - unfold formatProtocolTvlData.
    rewrite (tvl_accepts doc l) by (done || by eapply array_prop_truthy).
    destruct l; simpl; [done|]. by rewrite Hts.
  - unfold formatYieldPoolData.
    rewrite (nested_accepts doc "data" l) by (done || by eapply nested_list_truthy).
    destruct l; simpl; [done|]. by rewrite Hts.
  - unfold formatStablecoinData.
    rewrite (nested_accepts doc "peggedAssets" l)
      by (done || by eapply nested_list_truthy).
    destruct l; simpl; [done|]. by rewrite Hts.
  - unfold formatProtocolFeeData.
    rewrite (fee_accepts doc l) by (done || by eapply nested_list_truthy).
    destruct l; simpl; [done|]. by rewrite Hts.
Qed.

End ListRuleOutcomes.

Lemma list_rule_outcome_witness :
  (expects_list Stablecoin = true
   /\ collection_timestamp holed_document = Normal collected
   /\ read holed_document (container_path Stablecoin)
      = VArr [VObj [("name", VStr "Tether")]; VNull])
  /\ apply_rule not_a_number Stablecoin holed_document = Throw TypeError.
Proof.
  split; [by repeat split|].
  apply (list_rule_outcome not_a_number Stablecoin holed_document collected
           [VObj [("name", VStr "Tether")]; VNull]); reflexivity.
Defined.

Lemma list_rule_without_time_witness :
  (expects_list ProtocolFee = true
   /\ collection_timestamp empty_fees_document = Throw TypeError
   /\ read empty_fees_document (container_path ProtocolFee) = VArr [])
  /\ apply_rule not_a_number ProtocolFee empty_fees_document = Normal [].
Proof.
  split; [by repeat split|].
  apply (list_rule_without_time not_a_number ProtocolFee empty_fees_document
           TypeError []); reflexivity.
Defined.

(** ** The DEX volume rule: how it fails, and when it has nothing to say *)

Section DexOutcomes.

Variable coerceTime : value -> completion (option Z).

Local Arguments path : simpl never.

Lemma mapM_first_throw {A B} (f : A -> completion B) pre e post ys err :
  mapM f pre = Normal ys -> f e = Throw err ->
  mapM f (pre ++ e :: post) = Throw err.
Proof.
  revert ys. induction pre as [|x pre IH]; simpl; intros ys Hpre He.
  - by rewrite He.
  - apply bind_normal in Hpre as (y & -> & Hpre).
    apply bind_normal in Hpre as (ys' & Hys & _). simpl.
    by rewrite (IH ys' Hys He).
Qed.

Lemma chart_point_dateless e :
  is_dateless e = true -> chart_point coerceTime e = Throw RangeError.
Proof.
  destruct e as [| | | | |[|[| |?|n| | |] rest]|]; try done.
  unfold chart_point. simpl. destruct (whole n) as [ts|]; [|done].
  intros Hts%negb_true_iff. destruct rest; simpl; unfold TimeClip; by rewrite Hts.
Qed.

Lemma chart_point_unbindable e :
  is_unbindable e = true -> chart_point coerceTime e = Throw TypeError.
Proof. by destruct e. Qed.

Lemma historical_section_list doc es :
  truthy doc = true -> truthy (prop doc "data") = true ->
  prop (prop doc "data") "totalDataChart" = VArr es ->
  historical_section coerceTime doc []
  = mapM (chart_point coerceTime) es.
Proof.
  intros Hdoc Hdata Hc. unfold historical_section. rewrite path2 by done.
  simpl bind. rewrite Hc. simpl. rewrite chart_loop.
  by destruct (mapM (chart_point coerceTime) es).
Qed.

(** X3: the chart is walked in order and the first entry that cannot be
    turned into a record ends the rule, which then returns nothing: a
    RangeError for an entry without seconds or with whole seconds beyond the
    range of dates, a TypeError for an entry that is no list. *)
Theorem chart_entry_failure doc ts pre e post :
  lacks_container DexVolume doc = false ->
  collection_timestamp doc = Normal ts ->
  read doc ["data"; "totalDataChart"] = VArr (pre ++ e :: post) ->
  forallb is_point pre = true ->
  is_dateless e || is_unbindable e = true ->
  formatDexVolumeData coerceTime doc
  = Throw (if is_dateless e then RangeError else TypeError).
Proof.
  intros [Hdoc Hdata]%accepted Hts Hc Hpre He. rewrite read2 in Hc.
  rewrite dex_accepts, Hts by done. simpl bind.
  rewrite (historical_section_list doc _ Hdoc Hdata Hc).
  rewrite (mapM_first_throw _ pre e post (flat_map point_record pre)
             (if is_dateless e then RangeError else TypeError)); [done| |].
  - by apply mapM_chart_points.
  - destruct (is_dateless e) eqn:Hd; [by apply chart_point_dateless|].
    by apply chart_point_unbindable.
Qed.

(** X4: a chart that is there but is no list (an object keyed by date, a
    string, a number) makes the rule throw a TypeError: unlike the list
    rules, the DEX volume rule does not ask whether it holds a list. *)
Theorem chart_of_wrong_kind doc ts :
  lacks_container DexVolume doc = false ->
  collection_timestamp doc = Normal ts ->
  truthy (read doc ["data"; "totalDataChart"]) = true ->
  isArray (read doc ["data"; "totalDataChart"]) = false ->
  formatDexVolumeData coerceTime doc = Throw TypeError.
Proof.
  intros [Hdoc Hdata]%accepted Hts Ht Ha. rewrite read2 in Ht, Ha.
  rewrite dex_accepts, Hts by done. simpl bind.
  unfold historical_section. rewrite path2 by done. simpl bind. rewrite Ht.
  by destruct (prop (prop doc "data") "totalDataChart").
Qed.

(** X5: a chain of the first entry's breakdown that maps to [null] makes
    the rule throw a TypeError, after the chart has been walked and before
    any record is returned. *)
Theorem null_chain_throws doc ts p0 :
  lacks_container DexVolume doc = false ->
  collection_timestamp doc = Normal ts ->
  optional (is_list_of is_point) (read doc ["data"; "totalDataChart"]) = true ->
  first_entry doc = Some p0 ->
  forallb (fun entry => present entry.2) (props_of (prop p0 "breakdown24h"))
  = false ->
  formatDexVolumeData coerceTime doc = Throw TypeError.
Proof.
  intros [Hdoc Hdata]%accepted Hts Hc Hp0 Hnull. rewrite read2 in Hc.
  rewrite dex_accepts, Hts by done. simpl bind.
  rewrite historical_section_points by done. simpl bind.
  rewrite (dex_section_entry doc Hdoc Hdata p0 Hp0).
  unfold present in Hnull. by rewrite Hnull.
Qed.

(** X6: a document with [data] but neither chart nor first protocol entry
    gives the empty sequence when it declares a collection time and throws
    when it does not: the DEX volume rule reads the collection time before
    it looks for anything to emit. *)
Theorem nothing_to_emit doc :
  lacks_container DexVolume doc = false ->
  truthy (read doc ["data"; "totalDataChart"]) = false ->
  first_entry doc = None ->
  (forall ts, collection_timestamp doc = Normal ts ->
              formatDexVolumeData coerceTime doc = Normal [])
  /\ (forall err, collection_timestamp doc = Throw err ->
                  formatDexVolumeData coerceTime doc = Throw err).
Proof.
  intros [Hdoc Hdata]%accepted Hc Hp0. rewrite read2 in Hc.
  rewrite dex_accepts by done. split.
  - intros ts Hts. rewrite Hts. simpl bind.
    unfold historical_section. rewrite path2 by done. simpl bind. rewrite Hc.
    simpl bind.
    destruct (first_entry_none doc Hdoc Hdata Hp0 ts []) as [-> Hs].
    simpl bind. exact Hs.
  - intros err Hts. by rewrite Hts.
Qed.

End DexOutcomes.

Lemma chart_entry_failure_witness :
  (lacks_container DexVolume dateless_document = false
   /\ collection_timestamp dateless_document = Normal collected
   /\ read dateless_document ["data"; "totalDataChart"]
      = VArr ([VArr [VInt 1460419200; VInt 1000000]] ++ VArr []
              :: [VArr [VInt 1460505600; VInt 7]])
   /\ is_dateless (VArr []) || is_unbindable (VArr []) = true)
  /\ formatDexVolumeData not_a_number dateless_document = Throw RangeError.
Proof.
  split; [by repeat split|].
  apply (chart_entry_failure not_a_number dateless_document collected
           [VArr [VInt 1460419200; VInt 1000000]] (VArr [])
           [VArr [VInt 1460505600; VInt 7]]); reflexivity.
Defined.

Lemma chart_of_wrong_kind_witness :
  (lacks_container DexVolume keyed_chart_document = false
   /\ collection_timestamp keyed_chart_document = Normal collected
   /\ truthy (read keyed_chart_document ["data"; "totalDataChart"]) = true
   /\ isArray (read keyed_chart_document ["data"; "totalDataChart"]) = false)
  /\ formatDexVolumeData not_a_number keyed_chart_document = Throw TypeError.
Proof.
  split; [by repeat split|].
  apply (chart_of_wrong_kind not_a_number keyed_chart_document collected);
    reflexivity.
Defined.

Lemma null_chain_throws_witness :
  (lacks_container DexVolume null_chain_document = false
   /\ collection_timestamp null_chain_document = Normal collected
   /\ first_entry null_chain_document
      = Some (VObj [("breakdown24h",
                     VObj [("ethereum", VObj [("uniswap", VInt 500)]);
                           ("solana", VNull)])]))
  /\ formatDexVolumeData not_a_number null_chain_document = Throw TypeError.
Proof.
  split; [by repeat split|].
  apply (null_chain_throws not_a_number null_chain_document collected
           (VObj [("breakdown24h",
                   VObj [("ethereum", VObj [("uniswap", VInt 500)]);
                         ("solana", VNull)])])); reflexivity.
Defined.

Lemma nothing_to_emit_witness :
  (lacks_container DexVolume bare_document = false
   /\ truthy (read bare_document ["data"; "totalDataChart"]) = false
   /\ first_entry bare_document = None
   /\ collection_timestamp bare_document = Normal collected)
  /\ formatDexVolumeData not_a_number bare_document = Normal [].
Proof.
  split; [by repeat split|].
  apply (proj1 (nothing_to_emit not_a_number bare_document
                  eq_refl eq_refl eq_refl) collected).
  reflexivity.
Defined.

(** ** The DEX volume rule: what it reads and how much it returns *)

Section DexReads.

Variable coerceTime : value -> completion (option Z).

Local Arguments path : simpl never.

(** The chart section of an accepted document is a function of the chart. *)
Lemma historical_section_chart doc1 doc2 :
  lacks_container DexVolume doc1 = false ->
  lacks_container DexVolume doc2 = false ->
  read doc1 ["data"; "totalDataChart"] = read doc2 ["data"; "totalDataChart"] ->
  historical_section coerceTime doc1 [] = historical_section coerceTime doc2 [].
Proof.
  intros [Hdoc1 Hdata1]%accepted [Hdoc2 Hdata2]%accepted Hc.
  rewrite !read2 in Hc. unfold historical_section.
  rewrite !path2 by done. by rewrite Hc.
Qed.

Lemma late_sections_entry doc1 doc2 ts acc :
  lacks_container DexVolume doc1 = false ->
  lacks_container DexVolume doc2 = false ->
  first_entry doc1 = first_entry doc2 ->
  (formattedData <- dex_section doc1 ts acc ;;
   summary_section doc1 ts formattedData)
  = (formattedData <- dex_section doc2 ts acc ;;
     summary_section doc2 ts formattedData).
Proof.
  intros [Hdoc1 Hdata1]%accepted [Hdoc2 Hdata2]%accepted Hp.
  destruct (first_entry doc2) as [p0|] eqn:Hp2.
  - rewrite (dex_section_entry doc1 Hdoc1 Hdata1 p0 Hp),
      (dex_section_entry doc2 Hdoc2 Hdata2 p0 Hp2).
    destruct (forallb _ _); [|done]. simpl bind.
    by rewrite (summary_section_entry doc1 Hdoc1 Hdata1 p0 Hp),
      (summary_section_entry doc2 Hdoc2 Hdata2 p0 Hp2).
  - destruct (first_entry_none doc1 Hdoc1 Hdata1 Hp ts acc) as [-> _].
    destruct (first_entry_none doc2 Hdoc2 Hdata2 Hp2 ts acc) as [-> _].
    simpl bind.
    destruct (first_entry_none doc1 Hdoc1 Hdata1 Hp ts acc) as [_ ->].
    by destruct (first_entry_none doc2 Hdoc2 Hdata2 Hp2 ts acc) as [_ ->].
Qed.

(** X7: the DEX volume rule reads three things of a document it accepts:
    the collection time, the chart and the first protocol entry.  Two
    documents that agree on the three end the same way, with the same records
    or the same exception, whatever their other protocol entries and fields. *)
Theorem dex_reads_three_things doc1 doc2 :
  lacks_container DexVolume doc1 = false ->
  lacks_container DexVolume doc2 = false ->
  collection_timestamp doc1 = collection_timestamp doc2 ->
  read doc1 ["data"; "totalDataChart"] = read doc2 ["data"; "totalDataChart"] ->
  first_entry doc1 = first_entry doc2 ->
  formatDexVolumeData coerceTime doc1 = formatDexVolumeData coerceTime doc2.
Proof.
  intros Hl1 Hl2 Hts Hc Hp.
  destruct (accepted doc1 Hl1) as [Hdoc1 Hdata1].
  destruct (accepted doc2 Hl2) as [Hdoc2 Hdata2].
  rewrite !dex_accepts by done. rewrite Hts.
  destruct (collection_timestamp doc2) as [ts|]; [|done]. simpl bind.
  rewrite (historical_section_chart doc1 doc2) by done.
  destruct (historical_section coerceTime doc2 []) as [records|]; [|done].
  simpl bind. by apply late_sections_entry.
Qed.

Lemma point_records_length es :
  forallb is_point es = true -> length (flat_map point_record es) = length es.
Proof.
  induction es as [|e es IH]; simpl; intros Hes; [done|].
  apply andb_prop in Hes as [He Hes]. rewrite length_app, IH by done.
  destruct e as [| | | | |[|[| |?|n| | |] [|volume [|? ?]]]|]; try done.
  simpl in He |- *. by destruct (whole n).
Qed.

(** X8: on a well-formed document the rule returns one record per point
    of the chart, one per (chain, DEX) pair of the first entry's breakdown
    and one more when there is a first entry: the number of entries the
    driver reports is the sum of the three. *)
Theorem dex_record_count doc :
  well_formed_dex doc = true ->
  exists out,
    formatDexVolumeData coerceTime doc = Normal out
    /\ length out
       = (length (list_at (read doc ["data"; "totalDataChart"]))
          + match first_entry doc with
            | Some p0 => length (pairs_of (prop p0 "breakdown24h")) + 1
            | None => 0
            end)%nat.
Proof.
  intros Hw. eexists. split; [by apply dex_well_formed|].
  rewrite !length_app. unfold historical_of, dex_specific_of, summary_of.
  rewrite point_records_length.
  - destruct (first_entry doc); simpl; [by rewrite length_map|done].
  - unfold well_formed_dex in Hw.
    apply andb_prop in Hw as [[_ Hc]%andb_prop _].
    by destruct (read doc ["data"; "totalDataChart"]).
Qed.

Lemma point_records_points es :
  forallb is_point es = true ->
  Forall2 (fun e record =>
             exists n seconds volume,
               e = VArr [VNum n; volume] /\ whole n = Some seconds
               /\ record = historical_total (iso_text (seconds * 1000)) volume)
          es (flat_map point_record es).
Proof.
  induction es as [|e es IH]; simpl; intros Hes; [constructor|].
  apply andb_prop in Hes as [He Hes].
  destruct e as [| | | | |[|[| |?|n| | |] [|volume [|? ?]]]|]; try done.
  simpl in He |- *. destruct (whole n) as [seconds|] eqn:Hn; [|done].
  simpl. constructor; [|by apply IH]. by exists n, seconds, volume.
Qed.

(** X9: on a well-formed document the [historical_total] records follow
    the chart point by point, in the order of the chart: each keeps the
    volume of its point untouched and carries the ISO text of the point's
    seconds. *)
Theorem historical_records_follow_chart doc es :
  well_formed_dex doc = true ->
  read doc ["data"; "totalDataChart"] = VArr es ->
  exists out,
    formatDexVolumeData coerceTime doc = Normal out
    /\ Forall2 (fun e record =>
                  exists n seconds volume,
                    e = VArr [VNum n; volume] /\ whole n = Some seconds
                    /\ record
                       = VObj [("timestamp", VStr (iso_text (seconds * 1000)));
                               ("total_volume", volume);
                               ("type", VStr "historical_total")])
               es (List.filter (has_type "historical_total") out).
Proof.
  intros Hw Hc. eexists. split; [by apply dex_well_formed|].
  rewrite !List.filter_app, type_of_dex_records, type_of_summary by done.
  rewrite !app_nil_r. unfold historical_of. rewrite Hc. simpl list_at.
  assert (Hes : forallb is_point es = true).
  { unfold well_formed_dex in Hw.
    apply andb_prop in Hw as [[_ Hp]%andb_prop _]. by rewrite Hc in Hp. }
  rewrite filter_all.
  - by apply point_records_points.
  - by apply Forall_point_records.
Qed.

End DexReads.

Lemma dex_reads_three_things_witness :
  (lacks_container DexVolume breakdown_document = false
   /\ lacks_container DexVolume breakdown_variant = false
   /\ collection_timestamp breakdown_document
      = collection_timestamp breakdown_variant
   /\ read breakdown_document ["data"; "totalDataChart"]
      = read breakdown_variant ["data"; "totalDataChart"]
   /\ first_entry breakdown_document = first_entry breakdown_variant)
  /\ formatDexVolumeData not_a_number breakdown_document
     = formatDexVolumeData not_a_number breakdown_variant.
Proof.
  split; [by repeat split|].
  apply (dex_reads_three_things not_a_number breakdown_document
           breakdown_variant); reflexivity.
Defined.

Lemma dex_record_count_witness :
  well_formed_dex two_points_document = true
  /\ exists out,
       formatDexVolumeData not_a_number two_points_document = Normal out
       /\ length out = 5%nat.
Proof.
  split; [reflexivity|].
  exact (dex_record_count not_a_number two_points_document eq_refl).
Defined.

Lemma historical_records_follow_chart_witness :
  (well_formed_dex two_points_document = true
   /\ read two_points_document ["data"; "totalDataChart"]
      = VArr [VArr [VInt 1460419200; VInt 1000000];
              VArr [VInt 1460505600; VNull]])
  /\ exists out,
       formatDexVolumeData not_a_number two_points_document = Normal out
       /\ List.filter (has_type "historical_total") out
          = [historical_total "2016-04-12T00:00:00.000Z" (VInt 1000000);
             historical_total "2016-04-13T00:00:00.000Z" VNull].
Proof.
  split; [by split|].
  destruct (historical_records_follow_chart not_a_number two_points_document
              [VArr [VInt 1460419200; VInt 1000000];
               VArr [VInt 1460505600; VNull]] eq_refl eq_refl)
    as (out & Hout & _).
  exists out. split; [exact Hout|].
  injection Hout as <-. reflexivity.
Defined.

(** ** The batch driver: what a run touches, writes and survives *)

Section DriverRuns.

Variable coerceTime : value -> completion (option Z).

(** The table writes five different files, none of which it reads. *)
Lemma dataFiles_outputs : NoDup (map output (dataFiles coerceTime)).
Proof. apply (bool_decide_unpack _). by vm_compute. Qed.

Lemma dataFiles_inputs :
  Forall (fun e1 => Forall (fun e2 => input e1 <> output e2)
                           (dataFiles coerceTime))
         (dataFiles coerceTime).
Proof. apply (bool_decide_unpack _). by vm_compute. Qed.

Lemma dataFiles_input_kept e :
  e ∈ dataFiles coerceTime -> input e ∉ map output (dataFiles coerceTime).
Proof.
  intros He (e2 & Heq & He2)%list_elem_of_fmap.
  pose proof dataFiles_inputs as H. rewrite Forall_forall in H.
  specialize (H e He). rewrite Forall_forall in H. by apply (H e2).
Qed.

Lemma processAllData_files w :
  files (processAllData coerceTime w).1
  = files (process_entries (dataFiles coerceTime) w).1.
Proof.
  unfold processAllData.
  by destruct (process_entries (dataFiles coerceTime) w) as [w' [[]|err]].
Qed.

Lemma processAllData_result w :
  (processAllData coerceTime w).2
  = (process_entries (dataFiles coerceTime) w).2.
Proof.
  unfold processAllData.
  by destruct (process_entries (dataFiles coerceTime) w) as [w' [[]|err]].
Qed.

(** X10: a run of the driver changes no file but the five output files; in
    particular it never writes to a file it reads. *)
Theorem driver_touches_outputs_only w path :
  path ∉ map output (dataFiles coerceTime) ->
  files (processAllData coerceTime w).1 !! path = files w !! path.
Proof. intros Hp. rewrite processAllData_files. by apply process_entries_other. Qed.

(** Whether the rule of an entry returns on what the entry's input holds. *)
Lemma process_entry_result e w :
  (process_entry e w).2 = Normal tt
  <-> (truthy (readJsonFile (input e) w).1 = true ->
       exists records, processor e (readJsonFile (input e) w).1 = Normal records).
Proof.
  pose proof (process_entry_cases e w) as [_ H]. simpl in H.
  destruct (truthy (readJsonFile (input e) w).1);
    [destruct (processor e (readJsonFile (input e) w).1)
       as [[|record records]|err]|].
  - destruct H as (_ & -> & _). split; [eauto|done].
  - destruct H as (_ & ->). split; [eauto|done].
  - destruct H as (_ & ->). split; [done|]. intros [records Hr]; [done|done].
  - destruct H as (_ & -> & _). split; [done|done].
Qed.

Lemma process_entries_result es w :
  (forall e1 e2, e1 ∈ es -> e2 ∈ es -> input e1 <> output e2) ->
  (process_entries es w).2 = Normal tt
  <-> (forall e, e ∈ es ->
         truthy (readJsonFile (input e) w).1 = true ->
         exists records,
           processor e (readJsonFile (input e) w).1 = Normal records).
Proof.
  revert w. induction es as [|e es IH]; intros w Hio; simpl.
  - split; [|done]. intros _ e He. by apply elem_of_nil in He.
  - pose proof (process_entry_result e w) as He.
    assert (Hsame : forall e', e' ∈ es ->
              (readJsonFile (input e') (process_entry e w).1).1
              = (readJsonFile (input e') w).1).
    { intros e' He'. apply readJsonFile_same, process_entry_other.
      apply Hio; [by right|by left]. }
    specialize (IH (process_entry e w).1).
    destruct (process_entry e w) as [w' [[]|err]]; simpl in *.
    + rewrite IH by (intros e1 e2 H1 H2; apply Hio; by right).
      split.
      * intros Hes e' [->|He']%elem_of_cons; [by apply He|].
        rewrite <- (Hsame e' He'). by apply Hes.
      * intros Hes e' He'. rewrite (Hsame e' He'). apply Hes. by right.
    + split; [done|]. intros Hes.
      assert (Throw err = Normal tt) as Habs; [|done].
      apply He. apply Hes. by left.
Qed.

(** X11: a run of the driver goes through all five categories exactly when
    no rule throws on the document its input file holds; an input that is
    missing, unparseable or empty of records never stops the run. *)
Theorem driver_completes w :
  (processAllData coerceTime w).2 = Normal tt
  <-> (forall e, e ∈ dataFiles coerceTime ->
         truthy (readJsonFile (input e) w).1 = true ->
         exists records,
           processor e (readJsonFile (input e) w).1 = Normal records).
Proof.
  rewrite processAllData_result. apply process_entries_result.
  intros e1 e2 H1 H2. pose proof dataFiles_inputs as H.
  rewrite Forall_forall in H. specialize (H e1 H1).
  rewrite Forall_forall in H. by apply H.
Qed.

(** What a run that goes through has written for one of its entries. *)
Lemma process_entries_written pre e post w records :
  output e ∉ map output pre -> input e ∉ map output pre ->
  output e ∉ map output post ->
  (process_entries (pre ++ e :: post) w).2 = Normal tt ->
  processor e (readJsonFile (input e) w).1 = Normal records ->
  truthy (readJsonFile (input e) w).1 = true ->
  records <> [] ->
  files (process_entries (pre ++ e :: post) w).1 !! output e
  = Some (Json (serialized (VArr records))).
Proof.
  intros Hout Hin Hpost. revert w.
  induction pre as [|e0 pre IH]; intros w; simpl.
  - intros Hrun Hrecords Ht Hne.
    pose proof (process_entry_cases e w) as [_ H]. simpl in H.
    rewrite Ht, Hrecords in H. destruct records as [|record records]; [done|].
    destruct H as (Hf & Hr).
    pose proof (process_entries_other post (process_entry e w).1 (output e) Hpost)
      as Hrest.
    destruct (process_entry e w) as [w1 r1]. simpl in *. subst r1.
    by rewrite Hrest, Hf, lookup_insert_eq.
  - simpl in Hout, Hin.
    apply not_elem_of_cons in Hout as [Hout0 Hout].
    apply not_elem_of_cons in Hin as [Hin0 Hin].
    pose proof (process_entry_other e0 w (input e) Hin0) as Hi.
    apply readJsonFile_same in Hi.
    destruct (process_entry e0 w) as [w0 [[]|err]]; simpl in *; [|done].
    rewrite <- Hi. by apply IH.
Qed.

(** X12: in a run that goes through, every category whose rule returns
    records has them written to its output file, whatever became of the
    other four categories. *)
Theorem driver_writes_records e w records :
  e ∈ dataFiles coerceTime ->
  (processAllData coerceTime w).2 = Normal tt ->
  truthy (readJsonFile (input e) w).1 = true ->
  processor e (readJsonFile (input e) w).1 = Normal records ->
  records <> [] ->
  files (processAllData coerceTime w).1 !! output e
  = Some (Json (serialized (VArr records))).
Proof.
  intros He Hrun Ht Hrecords Hne.
  rewrite processAllData_result in Hrun. rewrite processAllData_files.
  destruct (split_entries (dataFiles coerceTime) e He dataFiles_outputs
              dataFiles_inputs) as (pre & post & Hes & H1 & H2 & H3).
  rewrite Hes in Hrun |- *. by apply process_entries_written.
Qed.

(** A second run over files that already hold what the first run wrote. *)
Lemma process_entries_again es w1 w2 :
  NoDup (map output es) ->
  (forall e1 e2, e1 ∈ es -> e2 ∈ es -> input e1 <> output e2) ->
  (forall e, e ∈ es -> files w2 !! input e = files w1 !! input e) ->
  (forall e, e ∈ es ->
     files w2 !! output e = files (process_entries es w1).1 !! output e) ->
  files (process_entries es w2).1 = files w2
  /\ (process_entries es w2).2 = (process_entries es w1).2.
Proof.
  revert w1 w2. induction es as [|e es IH]; intros w1 w2 Hnd Hio Hin Hout;
    simpl; [done|].
  simpl in Hnd. apply NoDup_cons in Hnd as [He Hnd].
  pose proof (process_entry_cases e w1) as [_ H1].
  pose proof (process_entry_cases e w2) as [_ H2].
  simpl in H1, H2.
  assert (Hdata : (readJsonFile (input e) w2).1 = (readJsonFile (input e) w1).1).
  { apply readJsonFile_same, Hin. by left. }
  rewrite Hdata in H2.
  pose proof (Hout e ltac:(by left)) as Hout_e. simpl in Hout_e.
  pose proof (process_entries_other es (process_entry e w1).1 (output e) He)
    as Hrest.
  assert (Hin1 : forall e', e' ∈ es ->
            files (process_entry e w1).1 !! input e' = files w1 !! input e').
  { intros e' He'. apply process_entry_other. apply Hio; [by right|by left]. }
  assert (Hfiles2 : files (process_entry e w2).1 = files w2).
  { destruct (truthy (readJsonFile (input e) w1).1);
      [destruct (processor e (readJsonFile (input e) w1).1)
         as [[|record records]|err]|]; try by destruct H2 as [-> _].
    destruct H1 as [Hf1 Hr1], H2 as [-> _].
    apply insert_id. rewrite Hout_e.
    destruct (process_entry e w1) as [w1' r1]. simpl in *. subst r1.
    by rewrite Hrest, Hf1, lookup_insert_eq. }
  assert (Hresult : (process_entry e w2).2 = (process_entry e w1).2).
  { destruct (truthy (readJsonFile (input e) w1).1);
      [destruct (processor e (readJsonFile (input e) w1).1)
         as [[|record records]|err]|].
    - by destruct H1 as (_ & -> & _), H2 as (_ & -> & _).
    - by destruct H1 as (_ & ->), H2 as (_ & ->).
    - by destruct H1 as (_ & ->), H2 as (_ & ->).
    - by destruct H1 as (_ & -> & _), H2 as (_ & -> & _). }
  specialize (IH (process_entry e w1).1 (process_entry e w2).1 Hnd).
  simpl in Hout.
  destruct (process_entry e w1) as [w1' r1], (process_entry e w2) as [w2' r2].
  simpl in *. subst r2. destruct r1 as [[]|err]; simpl; [|by split].
  destruct IH as [IHf IHr].
  - intros e1 e2 He1 He2. apply Hio; by right.
  - intros e' He'. rewrite Hfiles2, Hin1 by done. apply Hin. by right.
  - intros e' He'. rewrite Hfiles2. apply Hout. by right.
  - split; [by rewrite IHf|done].
Qed.

(** X13: the driver is idempotent on the files: a second run straight
    after a first one ends the same way and leaves every file as the first
    run left it. *)
Theorem driver_idempotent w :
  files (processAllData coerceTime (processAllData coerceTime w).1).1
  = files (processAllData coerceTime w).1
  /\ (processAllData coerceTime (processAllData coerceTime w).1).2
     = (processAllData coerceTime w).2.
Proof.
  assert (Hfiles : forall path,
            files (processAllData coerceTime w).1 !! path
            = files (process_entries (dataFiles coerceTime) w).1 !! path).
  { intros path. by rewrite processAllData_files. }
  rewrite (processAllData_result w).
  generalize dependent (processAllData coerceTime w).1. intros w2 Hfiles.
  rewrite processAllData_files, processAllData_result.
  apply (process_entries_again (dataFiles coerceTime) w w2).
  - apply dataFiles_outputs.
  - intros e1 e2 H1 H2. pose proof dataFiles_inputs as H.
    rewrite Forall_forall in H. specialize (H e1 H1).
    rewrite Forall_forall in H. by apply H.
  - intros e He. rewrite Hfiles.
    apply process_entries_other. by apply dataFiles_input_kept.
  - intros e He. apply Hfiles.
Qed.

End DriverRuns.

Lemma driver_touches_outputs_only_witness :
  ("data/dex/volumes/volumes_2025-04-15T22-09-43.495076.json"
   ∉ map output (dataFiles not_a_number))
  /\ files (processAllData not_a_number stale_world).1
       !! "data/dex/volumes/volumes_2025-04-15T22-09-43.495076.json"
     = Some (Json no_data_document).
Proof.
  assert (H : "data/dex/volumes/volumes_2025-04-15T22-09-43.495076.json"
              ∉ map output (dataFiles not_a_number)).
  { apply (bool_decide_unpack _). by vm_compute. }
  split; [exact H|].
  rewrite (driver_touches_outputs_only not_a_number stale_world _ H).
  reflexivity.
Defined.

Lemma driver_completes_witness :
  (processAllData not_a_number stale_world).2 = Normal tt.
Proof.
  apply (proj2 (driver_completes not_a_number stale_world)).
  intros e He Ht.
  repeat (apply elem_of_cons in He as [->|He]);
    [eexists; reflexivity|eexists; reflexivity|discriminate Ht..|].
  by apply elem_of_nil in He.
Defined.

(** The other way round: in [throwing_world] the DEX rule throws on its
    document, and the run stops there. *)
Example driver_stops :
  (processAllData not_a_number throwing_world).2 = Throw TypeError
  /\ files (processAllData not_a_number throwing_world).1
       !! "raw_data/protocol_fees_raw.json" = None.
Proof. split; reflexivity. Qed.

Lemma driver_writes_records_witness :
  (tvl_entry ∈ dataFiles not_a_number
   /\ (processAllData not_a_number stale_world).2 = Normal tt)
  /\ exists records,
       length records = 2%nat
       /\ files (processAllData not_a_number stale_world).1 !! output tvl_entry
          = Some (Json (serialized (VArr records))).
Proof.
  assert (Hin : tvl_entry ∈ dataFiles not_a_number) by left.
  split; [split; [exact Hin|reflexivity]|].
  exists (map (record_of collected protocol_tvl_fields)
            [VObj [("name", VStr "Lido"); ("tvl", VInt 100)];
             VObj [("name", VStr "Aave"); ("tvl", VInt 50)]]).
  split; [reflexivity|].
  apply (driver_writes_records not_a_number tvl_entry stale_world);
    [exact Hin|reflexivity|reflexivity|reflexivity|discriminate].
Defined.

(** ** The collector *)

Section CollectorRuns.

Variable respond : string -> option value.

Lemma append_length s t :
  String.length (s +:+ t) = (String.length s + String.length t)%nat.
Proof.
  induction s as [|a s IH]; [done|].
  change (String a s +:+ t) with (String a (s +:+ t)). simpl. by rewrite IH.
Qed.

Lemma append_inj_r t s1 s2 : s1 +:+ t = s2 +:+ t -> s1 = s2.
Proof.
  revert s2. induction s1 as [|a s1 IH]; intros [|b s2] H; [done| | |].
  - apply (f_equal String.length) in H. rewrite !append_length in H.
    simpl in H. lia.
  - apply (f_equal String.length) in H. rewrite !append_length in H.
    simpl in H. lia.
  - change (String a (s1 +:+ t) = String b (s2 +:+ t)) in H.
    injection H as -> H. f_equal. by apply IH.
Qed.

(** Different names are saved to different files. *)
Lemma data_file_inj f1 f2 : data_file f1 = data_file f2 -> f1 = f2.
Proof.
  unfold data_file. intros H. apply (inj (String.append "./data/")) in H.
  by apply append_inj_r in H.
Qed.

Lemma fetchData_value url w : (fetchData respond url w).1 = payload respond url.
Proof. unfold fetchData, payload. by destruct (respond url). Qed.

Lemma fetchData_files url w : files (fetchData respond url w).2 = files w.
Proof. unfold fetchData. by destruct (respond url). Qed.

Lemma fetchCategory_files announce url filename w :
  files (fetchCategory respond announce url filename w).2
  = if truthy (payload respond url)
    then <[data_file filename := Json (serialized (payload respond url))]>
           (files w)
    else files w.
Proof.
  unfold fetchCategory, fetchData, payload, data_file.
  destruct (respond url) as [body|]; simpl; [|done].
  by destruct (truthy body).
Qed.

Lemma fetchCategory_console announce url filename w :
  console (fetchCategory respond announce url filename w).2
  = console w ++ category_lines respond (announce, url, filename).
Proof.
  unfold fetchCategory, fetchData, category_lines.
  destruct (respond url) as [body|]; simpl.
  - destruct (truthy body); simpl; by rewrite <- ?app_assoc.
  - by rewrite <- app_assoc.
Qed.

Lemma collect_cons c cs w :
  collect respond (c :: cs) w
  = collect respond cs (fetchCategory respond c.1.1 c.1.2 c.2 w).2.
Proof. reflexivity. Qed.

(** [fetchAllData] is the run of its five categories. *)
Lemma fetchAllData_world w :
  (fetchAllData respond w).2
  = log "All data fetching completed!" (collect respond categories w).
Proof.
  unfold fetchAllData, fetchProtocolTVL, fetchDEXVolumes, fetchYieldPools,
    fetchStablecoinData, fetchFeeData, categories.
  rewrite !collect_cons. simpl.
  destruct (fetchCategory respond _ _ "protocols_tvl" w) as [v1 w1]. simpl.
  destruct (fetchCategory respond _ _ "dex_volumes" w1) as [v2 w2]. simpl.
  destruct (fetchCategory respond _ _ "yield_pools" w2) as [v3 w3]. simpl.
  destruct (fetchCategory respond _ _ "stablecoins" w3) as [v4 w4]. simpl.
  by destruct (fetchCategory respond _ _ "protocol_fees" w4) as [v5 w5].
Qed.

Lemma collect_other cs w path :
  path ∉ map (fun c => data_file c.2) cs ->
  files (collect respond cs w) !! path = files w !! path.
Proof.
  revert w. induction cs as [|[[a u] f] cs IH]; intros w Hp; [done|].
  apply not_elem_of_cons in Hp as [Hp0 Hp]. simpl in Hp0.
  rewrite collect_cons, IH by done. simpl.
  rewrite fetchCategory_files. destruct (truthy _); [|done].
  by rewrite lookup_insert_ne.
Qed.

Lemma collect_files cs w announce url filename :
  NoDup (map snd cs) ->
  (announce, url, filename) ∈ cs ->
  files (collect respond cs w) !! data_file filename
  = if truthy (payload respond url)
    then Some (Json (serialized (payload respond url)))
    else files w !! data_file filename.
Proof.
  revert w. induction cs as [|[[a u] f] cs IH]; intros w Hnd Hin;
    [by apply elem_of_nil in Hin|].
  change (NoDup (f :: map snd cs)) in Hnd.
  apply NoDup_cons in Hnd as [Hf Hnd]. rewrite collect_cons.
  apply elem_of_cons in Hin as [Heq|Hin].
  - injection Heq as -> -> ->. rewrite collect_other.
    + simpl. rewrite fetchCategory_files.
      destruct (truthy _); [by rewrite lookup_insert_eq|done].
    + rewrite list_elem_of_In, in_map_iff. intros (c & Hc & Hcin).
      apply data_file_inj in Hc. apply Hf.
      rewrite list_elem_of_In, in_map_iff. by exists c.
  - rewrite IH by done. destruct (truthy (payload respond url)); [done|].
    simpl. rewrite fetchCategory_files.
    destruct (truthy (payload respond u)); [|done].
    rewrite lookup_insert_ne; [done|]. intros H%data_file_inj. subst f.
    apply Hf. rewrite list_elem_of_In, in_map_iff.
    exists (announce, url, filename). split; [done|].
    by apply list_elem_of_In.
Qed.

Local Arguments collect : simpl never.

Lemma collect_console cs w :
  console (collect respond cs w)
  = console w ++ List.concat (map (category_lines respond) cs).
Proof.
  revert w. induction cs as [|[[a u] f] cs IH]; intros w;
    [by rewrite app_nil_r|].
  rewrite collect_cons, IH. simpl fst. simpl snd.
  rewrite fetchCategory_console. simpl. by rewrite <- app_assoc.
Qed.

(** X14: after [fetchAllData], the file of each category holds the body
    that arrived for it if that body is truthy; if the request failed or
    the body is falsy the file is what it was before the run, an earlier
    download included. *)
Theorem collector_saves_what_arrived w announce url filename :
  (announce, url, filename) ∈ categories ->
  files (fetchAllData respond w).2 !! data_file filename
  = if truthy (payload respond url)
    then Some (Json (serialized (payload respond url)))
    else files w !! data_file filename.
Proof.
  intros Hin. rewrite fetchAllData_world. simpl.
  apply (collect_files categories w announce); [|done].
  apply (bool_decide_unpack _). by vm_compute.
Qed.

(** X15: [fetchAllData] changes no file but the five it saves to. *)
Theorem collector_frame w path :
  path ∉ map (fun c => data_file c.2) categories ->
  files (fetchAllData respond w).2 !! path = files w !! path.
Proof. intros Hp. rewrite fetchAllData_world. simpl. by apply collect_other. Qed.

(** X16: the console after [fetchAllData]: for each of the five categories
    in turn its announcement, followed by the report of the failed request,
    or by the report of the save, or by nothing at all when the body arrived
    but is falsy; and the closing line, whatever happened before. *)
Theorem collector_transcript w :
  console (fetchAllData respond w).2
  = console w ++ List.concat (map (category_lines respond) categories)
    ++ [(Stdout, "All data fetching completed!")].
Proof.
  rewrite fetchAllData_world. simpl console.
  by rewrite collect_console, <- app_assoc.
Qed.

End CollectorRuns.

Lemma collector_saves_what_arrived_witness :
  files (fetchAllData sample_network earlier_world).2 !! "./data/stablecoins.json"
  = Some (Json (VArr [VStr "earlier"]))
  /\ files (fetchAllData sample_network earlier_world).2
       !! "./data/yield_pools.json"
     = Some (Json (VObj [("status", VStr "success"); ("data", VArr [VObj []])])).
Proof.
  split.
  - assert (H : ("Fetching stablecoin data...", STABLECOINS_URL +:+ "/stablecoins",
                 "stablecoins") ∈ categories) by (do 3 right; left).
    change "./data/stablecoins.json" with (data_file "stablecoins").
    rewrite (collector_saves_what_arrived sample_network earlier_world _ _ _ H).
    reflexivity.
  - assert (H : ("Fetching yield pool data...", YIELDS_URL +:+ "/pools",
                 "yield_pools") ∈ categories) by (do 2 right; left).
    change "./data/yield_pools.json" with (data_file "yield_pools").
    rewrite (collector_saves_what_arrived sample_network earlier_world _ _ _ H).
    reflexivity.
Defined.

Lemma collector_frame_witness :
  ("raw_data/dex_volumes_raw.json" ∉ map (fun c => data_file c.2) categories)
  /\ files (fetchAllData sample_network stale_world).2
       !! "raw_data/dex_volumes_raw.json"
     = Some (Json (VArr [VStr "earlier"])).
Proof.
  assert (H : "raw_data/dex_volumes_raw.json"
              ∉ map (fun c => data_file c.2) categories).
  { apply (bool_decide_unpack _). by vm_compute. }
  split; [exact H|].
  rewrite (collector_frame sample_network stale_world _ H). reflexivity.
Defined.

(** ** The collector and the normaliser, one after the other *)

Section Pipeline.

Variable respond : string -> option value.
Variable coerceTime : value -> completion (option Z).

Local Arguments collect : simpl never.

Lemma readJsonFile_missing path w :
  files w !! path = None -> (readJsonFile path w).1 = VNull.
Proof. unfold readJsonFile. by intros ->. Qed.

(** A run over inputs that are not there. *)
Lemma process_entries_missing es w :
  (forall e, e ∈ es -> files w !! input e = None) ->
  files (process_entries es w).1 = files w
  /\ (process_entries es w).2 = Normal tt
  /\ forall e, e ∈ es ->
       (Stdout, "Error: Could not read " +:+ input e)
       ∈ console (process_entries es w).1.
Proof.
  revert w. induction es as [|e es IH]; intros w Hes.
  - split_and!; [done..|]. by intros e He%elem_of_nil.
  - pose proof (process_entry_cases e w) as [_ H]. simpl in H.
    rewrite (readJsonFile_missing (input e) w) in H by (apply Hes; by left).
    simpl in H. destruct H as (Hf & Hr & Hline).
    unfold nothing_written in Hline. simpl in Hline.
    simpl. destruct (process_entry e w) as [w1 r1]. simpl in *. subst r1.
    destruct (IH w1) as (IHf & IHr & IHl).
    { intros e' He'. rewrite Hf. apply Hes. by right. }
    split_and!; [by rewrite IHf|done|].
    intros e' [->|He']%elem_of_cons; [|by apply IHl].
    destruct (process_entries_console es w1) as [lines ->].
    apply elem_of_app. by left.
Qed.

(** No file of the collector is a file of the normaliser, with or without
    a leading [./]. *)
Lemma paths_apart :
  Forall (fun e =>
            Forall (fun c =>
                      plain_path (data_file c.2) <> plain_path (input e)
                      /\ plain_path (data_file c.2) <> plain_path (output e))
                   categories)
         (dataFiles coerceTime).
Proof. apply (bool_decide_unpack _). by vm_compute. Qed.

Lemma not_saved path :
  Forall (fun c => plain_path (data_file c.2) <> plain_path path) categories ->
  path ∉ map (fun c => data_file c.2) categories.
Proof.
  intros H. rewrite list_elem_of_In, in_map_iff. intros (c & Hc & Hin).
  rewrite Forall_forall in H. apply (H c); [by apply list_elem_of_In|].
  by rewrite Hc.
Qed.

(** X17: the collector saves to none of the files the normaliser reads or
    writes, not even up to a leading [./]: [fetchAllData] leaves every input
    and every output of [processAllData] as it found it, so the normaliser
    never sees a download of the collector. *)
Theorem collector_feeds_no_rule w e :
  e ∈ dataFiles coerceTime ->
  Forall (fun c => plain_path (data_file c.2) <> plain_path (input e)
                   /\ plain_path (data_file c.2) <> plain_path (output e))
         categories
  /\ files (fetchAllData respond w).2 !! input e = files w !! input e
  /\ files (fetchAllData respond w).2 !! output e = files w !! output e.
Proof.
  intros He. pose proof paths_apart as H. rewrite Forall_forall in H.
  specialize (H e He). split; [done|].
  rewrite fetchAllData_world. simpl files.
  split; apply collect_other, not_saved; eapply Forall_impl; try exact H;
    by intros c [H1 H2].
Qed.

(** X18: run in a directory that holds none of the normaliser's inputs, the
    collector followed by the normaliser normalises nothing: the normaliser
    goes through, writes no file and reports each of its five inputs as
    unreadable, whatever the collector downloaded. *)
Theorem formatter_after_collector w :
  (forall e, e ∈ dataFiles coerceTime -> files w !! input e = None) ->
  let w1 := (fetchAllData respond w).2 in
  (processAllData coerceTime w1).2 = Normal tt
  /\ files (processAllData coerceTime w1).1 = files w1
  /\ forall e, e ∈ dataFiles coerceTime ->
       (Stdout, "Error: Could not read " +:+ input e)
       ∈ console (processAllData coerceTime w1).1.
Proof.
  intros Hw w1.
  assert (Hw1 : forall e, e ∈ dataFiles coerceTime -> files w1 !! input e = None).
  { intros e He. rewrite <- (Hw e He). unfold w1.
    rewrite fetchAllData_world. simpl files.
    pose proof paths_apart as H. rewrite Forall_forall in H.
    apply collect_other, not_saved. eapply Forall_impl; [exact (H e He)|].
    by intros c [H1 H2]. }
  destruct (process_entries_missing (dataFiles coerceTime) w1 Hw1)
    as (Hf & Hr & Hl).
  unfold processAllData.
  destruct (process_entries (dataFiles coerceTime) w1) as [w2 r2].
  simpl in *. subst r2. split_and!; [done..|].
  intros e He. apply elem_of_app. left. by apply Hl.
Qed.

End Pipeline.

Lemma collector_feeds_no_rule_witness :
  dex_entry ∈ dataFiles not_a_number
  /\ files (fetchAllData sample_network stale_world).2 !! input dex_entry
     = Some (Json no_data_document)
  /\ files (fetchAllData sample_network stale_world).2 !! output dex_entry
     = Some (Json (VArr [VStr "earlier"])).
Proof.
  assert (Hin : dex_entry ∈ dataFiles not_a_number) by (right; left).
  split; [exact Hin|].
  destruct (collector_feeds_no_rule sample_network not_a_number stale_world
              dex_entry Hin) as (_ & -> & ->).
  split; reflexivity.
Defined.

Lemma formatter_after_collector_witness :
  (processAllData not_a_number (fetchAllData sample_network (World ∅ [])).2).2
  = Normal tt
  /\ files (processAllData not_a_number
              (fetchAllData sample_network (World ∅ [])).2).1
     = files (fetchAllData sample_network (World ∅ [])).2
  /\ forall e, e ∈ dataFiles not_a_number ->
       (Stdout, "Error: Could not read " +:+ input e)
       ∈ console (processAllData not_a_number
                    (fetchAllData sample_network (World ∅ [])).2).1.
Proof.
  apply (formatter_after_collector sample_network not_a_number (World ∅ [])).
  intros e He. apply lookup_empty.
Defined.

(** ** The details of one protocol *)

Section Details.

Variable respond : string -> option value.

Lemma fetchProtocolDetails_value protocolSlug w :
  (fetchProtocolDetails respond protocolSlug w).1
  = details_document respond protocolSlug.
Proof.
  unfold fetchProtocolDetails, details_document, fetchData, payload.
  by destruct (respond (BASE_URL +:+ "/protocol/" +:+ protocolSlug)),
    (respond (BASE_URL +:+ "/summary/dexs/" +:+ protocolSlug)),
    (respond (BASE_URL +:+ "/summary/fees/" +:+ protocolSlug)).
Qed.

Lemma fetchProtocolDetails_files protocolSlug w :
  files (fetchProtocolDetails respond protocolSlug w).2
  = <[details_file protocolSlug
        := Json (serialized (details_document respond protocolSlug))]> (files w).
Proof.
  unfold fetchProtocolDetails, details_document, details_file, data_file,
    fetchData, payload.
  by destruct (respond (BASE_URL +:+ "/protocol/" +:+ protocolSlug)),
    (respond (BASE_URL +:+ "/summary/dexs/" +:+ protocolSlug)),
    (respond (BASE_URL +:+ "/summary/fees/" +:+ protocolSlug)).
Qed.

Lemma details_file_inj slug1 slug2 :
  details_file slug1 = details_file slug2 -> slug1 = slug2.
Proof.
  unfold details_file. intros H%data_file_inj.
  by apply (inj (String.append "protocol_")) in H.
Qed.

(** X19: [fetchProtocolDetails] saves what it returns, always: the three
    bodies side by side, [null] standing for a request that failed.  Unlike
    the five category functions it does not look at what arrived before it
    saves, and it changes no other file. *)
Theorem details_always_saved protocolSlug w :
  (fetchProtocolDetails respond protocolSlug w).1
  = details_document respond protocolSlug
  /\ files (fetchProtocolDetails respond protocolSlug w).2
       !! details_file protocolSlug
     = Some (Json (serialized (details_document respond protocolSlug)))
  /\ forall path, path <> details_file protocolSlug ->
       files (fetchProtocolDetails respond protocolSlug w).2 !! path
       = files w !! path.
Proof.
  split; [apply fetchProtocolDetails_value|].
  rewrite fetchProtocolDetails_files. split; [by rewrite lookup_insert_eq|].
  intros path Hp. by rewrite lookup_insert_ne.
Qed.

(** X20: when all three requests fail, [fetchProtocolDetails] still saves:
    the file of the protocol then holds three [null]s, whatever it held
    before, and the console shows the three failures followed by the report
    of the save. *)
Theorem details_of_nothing protocolSlug w :
  Forall (fun url => respond url = None) (detail_urls protocolSlug) ->
  let nothing := VObj [("tvl", VNull); ("volume", VNull); ("fees", VNull)] in
  (fetchProtocolDetails respond protocolSlug w).1 = nothing
  /\ files (fetchProtocolDetails respond protocolSlug w).2
       !! details_file protocolSlug
     = Some (Json nothing)
  /\ console (fetchProtocolDetails respond protocolSlug w).2
     = console w
       ++ (Stdout, "Fetching detailed data for " +:+ protocolSlug +:+ "...")
          :: map (fun url => (Stderr, "Error fetching data from " +:+ url +:+ ":"))
                 (detail_urls protocolSlug)
       ++ [(Stdout, "Data saved to " +:+ details_file protocolSlug)].
Proof.
  intros H nothing. unfold detail_urls in H.
  apply Forall_cons in H as [H1 H]. apply Forall_cons in H as [H2 H].
  apply Forall_cons in H as [H3 _].
  rewrite fetchProtocolDetails_files, lookup_insert_eq.
  unfold details_document, payload. rewrite H1, H2, H3.
  unfold fetchProtocolDetails, fetchData. rewrite H1, H2, H3.
  split_and!; [done..|]. simpl. by rewrite <- !app_assoc.
Qed.

(** X21: the file of a protocol is one of the five category files for one
    slug only: [fees], whose details land in [protocol_fees.json], the file
    of the fee overview; saved after [fetchAllData], they replace it. *)
Theorem details_file_clash protocolSlug w :
  ((exists c, c ∈ categories /\ data_file c.2 = details_file protocolSlug)
   <-> protocolSlug = "fees")
  /\ files (fetchProtocolDetails respond "fees" (fetchAllData respond w).2).2
       !! data_file "protocol_fees"
     = Some (Json (serialized (details_document respond "fees"))).
Proof.
  split.
  - split.
    + intros (c & Hc & Heq). unfold details_file in Heq.
      apply data_file_inj in Heq.
      repeat (apply elem_of_cons in Hc as [->|Hc]); try (by apply elem_of_nil in Hc);
        vm_compute in Heq; by simplify_eq.
    + intros ->.
      exists ("Fetching protocol fee data...", BASE_URL +:+ "/overview/fees",
              "protocol_fees").
      split; [do 4 right; left|done].
  - rewrite fetchProtocolDetails_files. apply lookup_insert_eq.
Qed.

(** X22: different slugs are saved to different files: the details of one
    protocol never replace those of another. *)
Theorem details_of_another slug1 slug2 w :
  slug1 <> slug2 ->
  details_file slug1 <> details_file slug2
  /\ files (fetchProtocolDetails respond slug2 w).2 !! details_file slug1
     = files w !! details_file slug1.
Proof.
  intros Hne.
  assert (H : details_file slug1 <> details_file slug2)
    by (intros H%details_file_inj; done).
  split; [done|]. rewrite fetchProtocolDetails_files. by rewrite lookup_insert_ne.
Qed.

End Details.

Lemma details_of_nothing_witness :
  (fetchProtocolDetails no_network "uniswap" details_world).1
  = VObj [("tvl", VNull); ("volume", VNull); ("fees", VNull)]
  /\ files (fetchProtocolDetails no_network "uniswap" details_world).2
       !! details_file "uniswap"
     = Some (Json (VObj [("tvl", VNull); ("volume", VNull); ("fees", VNull)]))
  /\ console (fetchProtocolDetails no_network "uniswap" details_world).2
     = console details_world
       ++ (Stdout, "Fetching detailed data for " +:+ "uniswap" +:+ "...")
          :: map (fun url => (Stderr, "Error fetching data from " +:+ url +:+ ":"))
                 (detail_urls "uniswap")
       ++ [(Stdout, "Data saved to " +:+ details_file "uniswap")].
Proof.
  apply (details_of_nothing no_network "uniswap" details_world).
  by repeat constructor.
Defined.

Lemma details_of_another_witness :
  details_file "uniswap" <> details_file "aave"
  /\ files (fetchProtocolDetails sample_network "aave" details_world).2
       !! details_file "uniswap"
     = files details_world !! details_file "uniswap".
Proof.
  apply (details_of_another sample_network "uniswap" "aave" details_world).
  discriminate.
Defined.

(** ** Whole seconds and what is written of a record *)

Section Written.

Variable coerceTime : value -> completion (option Z).

Lemma append_assoc s t u : (s +:+ t) +:+ u = s +:+ (t +:+ u).
Proof.
  induction s as [|a s IH]; [done|].
  change (String a ((s +:+ t) +:+ u) = String a (s +:+ (t +:+ u))).
  by rewrite IH.
Qed.

Lemma append_nil_l s : "" +:+ s = s.
Proof. reflexivity. Qed.

Lemma whole_int z : whole (inject_Z z) = Some z.
Proof.
  unfold whole, Qred, inject_Z. simpl Qnum. simpl Qden.
  pose proof (Z.ggcd_gcd z 1) as Hg.
  pose proof (Z.ggcd_correct_divisors z 1) as Hd.
  destruct (Z.ggcd z 1) as [g [a b]]. simpl in *.
  rewrite Z.gcd_1_r in Hg. subst g. destruct Hd as [Ha Hb].
  assert (a = z) as -> by lia. assert (b = 1) as -> by lia. done.
Qed.

(** The ISO text of whole seconds has no milliseconds to show. *)
Lemma iso_text_whole seconds :
  exists prefix, iso_text (seconds * 1000) = prefix +:+ ".000Z".
Proof.
  unfold iso_text. destruct (civil (Day (seconds * 1000))) as [[y m] d].
  cbv zeta.
  assert (Hms : TimeWithinDay (seconds * 1000) mod 1000 = 0).
  { unfold TimeWithinDay, msPerDay.
    Z.div_mod_to_equations. lia. }
  rewrite Hms. cbn [String.concat]. rewrite !append_nil_l.
  change (pad 3 0) with "000".
  exists (year_text y +:+ "-" +:+ pad 2 m +:+ "-" +:+ pad 2 d +:+ "T"
          +:+ pad 2 (TimeWithinDay (seconds * 1000) / 3600000) +:+ ":"
          +:+ pad 2 (TimeWithinDay (seconds * 1000) / 60000 mod 60) +:+ ":"
          +:+ pad 2 (TimeWithinDay (seconds * 1000) / 1000 mod 60)).
  by rewrite !append_assoc.
Qed.

(** X23: a point of the chart whose seconds are a whole number becomes a
    record unless the seconds lie beyond the range of dates, where the rule
    throws a RangeError; the timestamp of the record ends in [.000Z], so
    the historical records carry UTC times on the second, unlike the
    collection time the other records carry. *)
Theorem whole_seconds_point seconds volume :
  chart_point coerceTime (VArr [VInt seconds; volume])
  = (if Z.abs (seconds * 1000) <=? 8640000000000000
     then Normal (historical_total (iso_text (seconds * 1000)) volume)
     else Throw RangeError)
  /\ exists prefix, iso_text (seconds * 1000) = prefix +:+ ".000Z".
Proof.
  split; [|apply iso_text_whole].
  unfold chart_point, VInt. simpl. rewrite whole_int. simpl. unfold TimeClip.
  by destruct (Z.abs (seconds * 1000) <=? 8640000000000000).
Qed.

Lemma lookup_serialized ps k :
  NoDup (map fst ps) ->
  lookup_prop k (props_of (serialized (VObj ps)))
  = x ← lookup_prop k ps; written x.
Proof.
  intros Hnd. simpl. induction ps as [|[k' x] ps IH]; [done|].
  change (NoDup (k' :: map fst ps)) in Hnd.
  apply NoDup_cons in Hnd as [Hk Hnd]. specialize (IH Hnd).
  simpl lookup_prop at 2. destruct (String.eqb k k') eqn:E.
  - apply String.eqb_eq in E. subst k'. simpl.
    assert (Hno : lookup_prop k ps = None).
    { clear -Hk. induction ps as [|[k1 x1] ps IH]; [done|]. simpl.
      destruct (String.eqb k k1) eqn:E1.
      - apply String.eqb_eq in E1. subst k1. exfalso. apply Hk. by left.
      - apply IH. intros H. apply Hk. by right. }
    destruct x; simpl; rewrite ?String.eqb_refl; try done.
    by rewrite IH, Hno.
  - destruct x; simpl; rewrite ?E; exact IH.
Qed.

Lemma lookup_prop_cons k k' v rest :
  lookup_prop k ((k', v) :: rest)
  = if String.eqb k k' then Some v else lookup_prop k rest.
Proof. reflexivity. Qed.

Lemma lookup_prop_app k ps qs x :
  lookup_prop k ps = Some x -> lookup_prop k (ps ++ qs) = Some x.
Proof.
  induction ps as [|[k' y] ps IH]; [done|]. simpl.
  by destruct (String.eqb k k').
Qed.

Lemma lookup_fields src (spec : list (string * string)) out k :
  NoDup (map fst spec) ->
  (out, k) ∈ spec ->
  lookup_prop out (map (fun '(out, k) => (out, prop src k)) spec)
  = Some (prop src k).
Proof.
  induction spec as [|[out' k'] spec IH]; intros Hnd Hin;
    [by apply elem_of_nil in Hin|].
  change (NoDup (out' :: map fst spec)) in Hnd.
  apply NoDup_cons in Hnd as [Hk Hnd]. simpl.
  apply elem_of_cons in Hin as [Heq|Hin].
  - injection Heq as -> ->. by rewrite String.eqb_refl.
  - destruct (String.eqb out out') eqn:E; [|by apply IH].
    apply String.eqb_eq in E. subst out'. exfalso. apply Hk.
    rewrite list_elem_of_In, in_map_iff. exists (out, k).
    split; [done|]. by apply list_elem_of_In.
Qed.

Lemma fields_keys src (spec : list (string * string)) :
  map fst (map (fun '(out, k) => (out, prop src k)) spec) = map fst spec.
Proof. induction spec as [|[out k] spec IH]; [done|]. simpl. by rewrite IH. Qed.

(** The keys of the record of a list rule are all different, and the field
    of an entry of the rule's table holds what the element has under the
    entry's source name. *)
Lemma rule_record_fields r ts src out k :
  expects_list r = true ->
  (out, k) ∈ rule_fields r ->
  exists ps,
    rule_record r ts src = VObj ps
    /\ NoDup (map fst ps)
    /\ lookup_prop out ps = Some (prop src k).
Proof.
  intros Hr Hin.
  assert (Hspec : NoDup ("timestamp" :: map fst (rule_fields r) ++ ["predictions"])).
  { destruct r; apply (bool_decide_unpack _); by vm_compute. }
  apply NoDup_cons in Hspec as [Hts Hspec].
  assert (Hout : String.eqb out "timestamp" = false).
  { apply String.eqb_neq. intros ->. apply Hts. apply elem_of_app. left.
    rewrite list_elem_of_In, in_map_iff. exists ("timestamp", k).
    split; [done|]. by apply list_elem_of_In. }
  apply NoDup_app in Hspec as (Hflat & _ & _).
  pose proof (lookup_fields src _ out k Hflat Hin) as Hl.
  destruct r; try done;
    unfold rule_record, record_of, yield_record, rule_fields in *;
    (eexists; split; [reflexivity|]; split;
     [apply (bool_decide_unpack _); by vm_compute
     |rewrite lookup_prop_cons, Hout; try apply lookup_prop_app; exact Hl]).
Qed.

Lemma lookup_map {A B} (f : A -> B) l i :
  map f l !! i = f <$> (l !! i).
Proof.
  revert i. induction l as [|x l IH]; intros [|i]; simpl; done.
Qed.

Lemma serialized_records r ts l :
  expects_list r = true ->
  serialized (VArr (map (rule_record r ts) l))
  = VArr (map (fun src => serialized (rule_record r ts src)) l).
Proof.
  intros Hr. simpl. f_equal. rewrite map_map. apply map_ext. intros x.
  by destruct r.
Qed.

(** A document that declares its collection time is an object. *)
Lemma declared_truthy doc ts :
  collection_timestamp doc = Normal ts -> truthy doc = true.
Proof. destruct doc; try done; by vm_compute. Qed.

(** X24: what a run of the driver leaves in the output file of a list rule.
    Take the category of a list rule whose input file holds a document that
    declares its collection time and has, at the rule's path, a list without
    [null]s.  After a run that goes through, the output file holds one record
    per element of the list, in order, and in the record of an element each
    field of the rule's table holds the value the element has under the
    source name, [null] included; the field is left out altogether when the
    element has no such property. *)
Theorem written_record_fields r e w doc ts l i src out k :
  expects_list r = true ->
  e ∈ dataFiles coerceTime ->
  processor e = apply_rule coerceTime r ->
  files w !! input e = Some (Json doc) ->
  collection_timestamp doc = Normal ts ->
  read doc (container_path r) = VArr l ->
  forallb present l = true ->
  (processAllData coerceTime w).2 = Normal tt ->
  l !! i = Some src ->
  (out, k) ∈ rule_fields r ->
  exists records record,
    files (processAllData coerceTime w).1 !! output e
    = Some (Json (VArr records))
    /\ length records = length l
    /\ records !! i = Some record
    /\ lookup_prop out (props_of record) = written (prop src k).
Proof.
  intros Hr He Hproc Hfile Hts Hl Hpresent Hrun Hi Hin.
  assert (Hread : (readJsonFile (input e) w).1 = doc).
  { unfold readJsonFile. by rewrite Hfile. }
  assert (Hrule : processor e (readJsonFile (input e) w).1
                  = Normal (map (rule_record r ts) l)).
  { rewrite Hread, Hproc, (list_rule_body coerceTime r doc ts Hr Hts l Hl).
    by rewrite Hpresent. }
  assert (Hne : map (rule_record r ts) l <> []).
  { destruct l; [done|]. simpl. discriminate. }
  assert (Hwritten :
            files (processAllData coerceTime w).1 !! output e
            = Some (Json (serialized (VArr (map (rule_record r ts) l))))).
  { rewrite processAllData_result in Hrun. rewrite processAllData_files.
    destruct (split_entries (dataFiles coerceTime) e He
                (dataFiles_outputs coerceTime) (dataFiles_inputs coerceTime))
      as (pre & post & Hes & H1 & H2 & H3).
    rewrite Hes in Hrun |- *. apply process_entries_written; try done.
    rewrite Hread. by apply (declared_truthy doc ts). }
  rewrite serialized_records in Hwritten by done.
  exists (map (fun src => serialized (rule_record r ts src)) l),
    (serialized (rule_record r ts src)).
  split_and!; [done| |by rewrite lookup_map, Hi|].
  - clear. induction l as [|x l IH]; simpl; [done|]. by rewrite IH.
  - destruct (rule_record_fields r ts src out k Hr Hin) as (ps & -> & Hnd & Hlk).
    by rewrite lookup_serialized, Hlk.
Qed.

End Written.

Lemma written_record_fields_witness :
  (tvl_entry ∈ dataFiles not_a_number
   /\ files stale_world !! input tvl_entry = Some (Json tvl_document)
   /\ (processAllData not_a_number stale_world).2 = Normal tt)
  /\ (exists records record,
        files (processAllData not_a_number stale_world).1 !! output tvl_entry
        = Some (Json (VArr records))
        /\ length records = 2%nat
        /\ records !! 0%nat = Some record
        /\ lookup_prop "protocol_name" (props_of record) = Some (VStr "Lido"))
  /\ (exists records record,
        files (processAllData not_a_number stale_world).1 !! output tvl_entry
        = Some (Json (VArr records))
        /\ length records = 2%nat
        /\ records !! 0%nat = Some record
        /\ lookup_prop "protocol_symbol" (props_of record) = None).
Proof.
  assert (Hin : tvl_entry ∈ dataFiles not_a_number) by left.
  split; [by repeat split|]. split.
  - assert (H : ("protocol_name", "name") ∈ rule_fields ProtocolTvl) by left.
    exact (written_record_fields not_a_number ProtocolTvl tvl_entry stale_world
             tvl_document collected
             [VObj [("name", VStr "Lido"); ("tvl", VInt 100)];
              VObj [("name", VStr "Aave"); ("tvl", VInt 50)]]
             0%nat (VObj [("name", VStr "Lido"); ("tvl", VInt 100)])
             "protocol_name" "name"
             eq_refl Hin eq_refl eq_refl eq_refl eq_refl eq_refl eq_refl
             eq_refl H).
  - assert (H : ("protocol_symbol", "symbol") ∈ rule_fields ProtocolTvl)
      by (do 2 right; left).
    exact (written_record_fields not_a_number ProtocolTvl tvl_entry stale_world
             tvl_document collected
             [VObj [("name", VStr "Lido"); ("tvl", VInt 100)];
              VObj [("name", VStr "Aave"); ("tvl", VInt 50)]]
             0%nat (VObj [("name", VStr "Lido"); ("tvl", VInt 100)])
             "protocol_symbol" "symbol"
             eq_refl Hin eq_refl eq_refl eq_refl eq_refl eq_refl eq_refl
             eq_refl H).
Defined.
